(** * USBSwitchController: the command/response engine of nxpad2

    A shallow embedding of [src/joycon/USBSwitchController.py]: the packet
    transport ([usb_write], [usb_read]), the command channel
    ([send_command]), the UART and bluetooth encapsulations
    ([send_uart_command], [send_bluetooth_command]) and the device-info
    reader ([read_device_info]).

    Python bytes, [array('B')] buffers and lists of ints are lists of [Z].
    The methods run in a state monad over a [world] that holds what the
    device is going to answer, the transport traffic seen so far and the
    lines printed; a computation ends with a value, with a Python exception,
    or by exhausting the fuel that bounds the [while True] loop. *)

From Stdlib Require Import ZArith Lia Ascii String.
From stdpp Require Import base list strings.

Local Open Scope Z_scope.

(** ** Python values and exceptions *)

Inductive exn : Type :=
  | IndexError      (* subscript out of range *)
  | TypeError       (* subscripting None *)
  | ValueError      (* bytes() of an int outside range(256) *)
  | OverflowError   (* int.to_bytes of an int that does not fit *)
  | StructError     (* struct.pack argument out of range *)
  | USBError.       (* usb.core.USBError *)

Inductive outcome (A : Type) : Type :=
  | Ret (a : A)
  | Raise (e : exn)
  | OutOfFuel.
Arguments Ret {A} a.
Arguments Raise {A} e.
Arguments OutOfFuel {A}.

(** ** The device and the transport *)

(** What one [dev.read] is going to produce. *)
Inductive read_result : Type :=
  | Packet (p : list Z)
  | ReadFails.

Inductive event : Type :=
  | EvWrite (packet : list Z)
  | EvRead (length timeout : nat).

Record world : Type := World {
  script : list read_result;   (* the answers of the coming reads *)
  trace  : list event;         (* transport calls so far, oldest first *)
  stdout : list string         (* lines printed so far, oldest first *)
}.

Definition M (A : Type) : Type := world → outcome A * world.

Global Instance M_ret : MRet M := λ A a w, (Ret a, w).

Global Instance M_bind : MBind M := λ A B f m w,
  match m w with
  | (Ret a, w') => f a w'
  | (Raise e, w') => (Raise e, w')
  | (OutOfFuel, w') => (OutOfFuel, w')
  end.

Definition raise {A} (e : exn) : M A := λ w, (Raise e, w).

Definition out_of_fuel {A} : M A := λ w, (OutOfFuel, w).

(** [try: body  except usb.core.USBError: handler] *)
Definition try_except_USBError {A} (body handler : M A) : M A := λ w,
  match body w with
  | (Raise USBError, w') => handler w'
  | r => r
  end.

Definition log (e : event) (w : world) : world :=
  World (script w) (trace w ++ [e]) (stdout w).

(** [self.dev.write(self.endpoint_out, packet)]: the device takes the
    packet; PyUSB returns the number of bytes written. *)
Definition dev_write (packet : list Z) : M nat := λ w,
  (Ret (length packet), log (EvWrite packet) w).

(** [self.dev.read(self.endpoint_in, length, timeout)]: the next answer of
    the device, at most [length] bytes of it; a device that has nothing
    (left) to say within the timeout makes PyUSB raise [USBError]. *)
Definition dev_read (len timeout : nat) : M (list Z) := λ w,
  let w' := log (EvRead len timeout) w in
  match script w with
  | Packet p :: rest => (Ret (take len p), World rest (trace w') (stdout w'))
  | ReadFails :: rest => (Raise USBError, World rest (trace w') (stdout w'))
  | [] => (Raise USBError, w')
  end.

Definition print (line : string) : M unit := λ w,
  (Ret (), World (script w) (trace w) (stdout w ++ [line])).

(** ** Python primitives *)

(** [l[i]] for a non-negative [i]. *)
Definition py_index (l : list Z) (i : nat) : M Z :=
  match l !! i with
  | Some x => mret x
  | None => raise IndexError
  end.

(** [l[i:j]] for non-negative [i], [j]: never raises, stops at the end. *)
Definition slice (i j : nat) (l : list Z) : list Z := take (j - i) (drop i l).

Definition is_byte (x : Z) : bool := (0 <=? x) && (x <? 256).

(** [bytes(l)] *)
Definition py_bytes (l : list Z) : M (list Z) :=
  if forallb is_byte l then mret l else raise ValueError.

(** [x.to_bytes(1, byteorder='little')] *)
Definition to_bytes_1 (x : Z) : M (list Z) :=
  if is_byte x then mret [x] else raise OverflowError.

(** [int.from_bytes(b, byteorder='little')] *)
Fixpoint int_from_bytes_little (b : list Z) : Z :=
  match b with
  | [] => 0
  | x :: b' => x + 256 * int_from_bytes_little b'
  end.

(** [struct.pack("<BHBBB", a, h, b, c, d)]: no padding, [H] little-endian. *)
Definition struct_pack_BHBBB (a h b c d : Z) : M (list Z) :=
  if is_byte a && ((0 <=? h) && (h <? 65536)) && is_byte b && is_byte c && is_byte d
  then mret [a; h mod 256; h / 256; b; c; d]
  else raise StructError.

(** The ['%x'] and ['%02x'] conversions of the [%] operator. *)
Definition hex_digit (d : Z) : ascii :=
  match d with
  | 0 => "0" | 1 => "1" | 2 => "2" | 3 => "3" | 4 => "4" | 5 => "5"
  | 6 => "6" | 7 => "7" | 8 => "8" | 9 => "9" | 10 => "a" | 11 => "b"
  | 12 => "c" | 13 => "d" | 14 => "e" | _ => "f"
  end%char.

Fixpoint hex_digits (fuel : nat) (n : Z) (acc : string) : string :=
  match fuel with
  | O => acc
  | S fuel' =>
      let acc' := String (hex_digit (n mod 16)) acc in
      if n / 16 =? 0 then acc' else hex_digits fuel' (n / 16) acc'
  end.

Definition hex_abs (n : Z) : string :=
  hex_digits (S (Z.to_nat (Z.log2 (Z.abs n)))) (Z.abs n) EmptyString.

Definition format_x (n : Z) : string :=
  if n <? 0 then "-" +:+ hex_abs n else hex_abs n.

Definition format_02x (n : Z) : string :=
  if n <? 0 then "-" +:+ hex_abs n
  else if (String.length (hex_abs n) <? 2)%nat then "0" +:+ hex_abs n
  else hex_abs n.

(** ** The class [USBSwitchController] *)

Definition COMMAND_DEVICE_INFO       : list Z := [0x80; 0x01].
Definition COMMAND_UART_PAIR         : list Z := [0x80; 0x02].
Definition COMMAND_RESTRICT_TO_HID   : list Z := [0x80; 0x04].
Definition COMMAND_SEND_UART_COMMAND : list Z := [0x80; 0x92].
Definition COMMAND_ENTER_DFU         : list Z := [0x82; 0x01].

Definition UART_COMMAND_SEND_BT_CMD : Z := 0x00.

Definition USB_BUF_LEN : nat := 64.

Definition usb_write (packet : list Z) : M nat := dev_write packet.

(** [usb_read(self, length=None, timeout=200)] *)
Definition usb_read (len : option nat) (timeout : option nat) : M (list Z) :=
  let timeout := default 200%nat timeout in
  let len := default USB_BUF_LEN len in
  try_except_USBError
    (dev_read len timeout)
    (mret (replicate len 0)).

Record UsbResponse : Type := mkUsbResponse {
  cmd_type : Z;
  cmd      : Z;
  status   : Z;
  data     : list Z
}.

(** [UsbResponse.__init__(s, pkt, data_len)] *)
Definition UsbResponse_init (pkt : list Z) (data_len : nat) : M UsbResponse :=
  cmd_type ← py_index pkt 0;
  cmd ← py_index pkt 1;
  status ← py_index pkt 2;
  mret (mkUsbResponse cmd_type cmd status (slice 3 (3 + data_len) pkt)).

(** How the [while True] loop of [send_command] is left: by [break], with
    the response read last, or by [return None]. *)
Inductive loop_exit : Type :=
  | Break (resp : UsbResponse)
  | ReturnNone.

(** [resp.cmd_type == command[0] | 1 and resp.cmd == command[1]] *)
Definition correlation_test (resp : UsbResponse) (command : list Z) : M bool :=
  c0 ← py_index command 0;
  if cmd_type resp =? Z.lor c0 1
  then c1 ← py_index command 1; mret (cmd resp =? c1)
  else mret false.

(** [(resp.cmd_type, resp.cmd) == (0x81, 0x01) and resp.status != 0] *)
Definition device_error_test (resp : UsbResponse) : bool :=
  ((cmd_type resp =? 0x81) && (cmd resp =? 0x01)) && negb (status resp =? 0).

Fixpoint send_command_loop (fuel : nat) (command : list Z)
    (response_length : nat) : M loop_exit :=
  match fuel with
  | O => out_of_fuel
  | S fuel' =>
      raw_response ← usb_read None None;
      resp ← UsbResponse_init raw_response response_length;
      correlated ← correlation_test resp command;
      if (correlated : bool) then mret (Break resp)
      else if device_error_test resp then mret ReturnNone
      else
        _ ← usb_write command;
        send_command_loop fuel' command response_length
  end.

Definition warning (resp : UsbResponse) : string :=
  "resp " +:+ format_02x (cmd_type resp) +:+ ":" +:+ format_02x (cmd resp)
    +:+ " error " +:+ format_x (status resp).

(** [send_command(self, command, response_length=USB_BUF_LEN)]; the result
    is [None] or the data of the response. *)
Definition send_command (fuel : nat) (command : list Z)
    (response_length : nat) : M (option (list Z)) :=
  _ ← usb_write command;
  if (response_length =? 0)%nat then mret None
  else
    exit ← send_command_loop fuel command response_length;
    match (exit : loop_exit) with
    | ReturnNone => mret None
    | Break resp =>
        _ ← (if negb (status resp =? 0) then print (warning resp) else mret ());
        mret (Some (data resp))
    end.

(** [o[i:j]] and [o[i:]] where [o] may be [None]. *)
Definition subscript_slice (o : option (list Z)) (i j : nat) : M (list Z) :=
  match o with
  | Some l => mret (slice i j l)
  | None => raise TypeError
  end.

Definition subscript_from (o : option (list Z)) (i : nat) : M (list Z) :=
  match o with
  | Some l => mret (drop i l)
  | None => raise TypeError
  end.

(** The dict [{'type': joycon_type, 'mac': mac}]. *)
Record DeviceInfo : Type := mkDeviceInfo {
  joycon_type : Z;
  mac         : Z
}.

(** What [read_device_info] returns: the raw data when [raw] is set, the
    dict otherwise. *)
Inductive device_info_result : Type :=
  | RawInfo (info : option (list Z))
  | Parsed (result : DeviceInfo).

(** The parsing half of [read_device_info] (from "Parse the data in the
    device info report" to its [return result]), on the value [info] that
    [send_command] gave. *)
Definition decode_device_info (info : option (list Z)) : M DeviceInfo :=
  b0 ← subscript_slice info 0 1;
  b0 ← py_bytes b0;
  let joycon_type := int_from_bytes_little b0 in
  b1 ← subscript_slice info 1 7;
  b1 ← py_bytes b1;
  let mac := int_from_bytes_little b1 in
  mret (mkDeviceInfo joycon_type mac).

(** [read_device_info(self, raw=False)] *)
Definition read_device_info (fuel : nat) (raw : bool) : M device_info_result :=
  info ← send_command fuel COMMAND_DEVICE_INFO 8;
  if raw then mret (RawInfo info)
  else
    result ← decode_device_info info;
    mret (Parsed result).

(** [pair_via_uart(self)] *)
Definition pair_via_uart (fuel : nat) : M bool :=
  response ← send_command fuel COMMAND_UART_PAIR USB_BUF_LEN;
  mret (bool_decide (response ≠ None)).

(** [restrict_to_hid(self)] *)
Definition restrict_to_hid (fuel : nat) : M unit :=
  _ ← send_command fuel COMMAND_RESTRICT_TO_HID 0;
  mret ().

(** [send_uart_command(self, command, argument=b'')] *)
Definition send_uart_command (fuel : nat) (command : Z) (argument : list Z)
    : M (list Z) :=
  command_header ←
    struct_pack_BHBBB command (Z.of_nat (length argument)) 0 0 0;
  tag ← py_bytes COMMAND_SEND_UART_COMMAND;
  let packet := tag ++ command_header ++ argument in
  raw_response ← send_command fuel packet USB_BUF_LEN;
  response ← subscript_from raw_response 7;
  mret response.

(** [send_bluetooth_command(self, command, subcommand, argument=b'',
    response_length=35)] *)
Definition send_bluetooth_command (fuel : nat) (command subcommand : Z)
    (argument : list Z) (response_length : nat) : M (list Z) :=
  command ← to_bytes_1 command;
  rumble ← py_bytes [0x00; 0x00; 0x01; 0x40; 0x40; 0x00; 0x01; 0x40; 0x40];
  subcommand ← to_bytes_1 subcommand;
  let packet := command ++ rumble ++ subcommand ++ argument in
  raw_response ← send_uart_command fuel UART_COMMAND_SEND_BT_CMD packet;
  let response := slice 15 (15 + response_length) raw_response in
  mret response.

(** ** Vocabulary of the statements *)

(** The buffer one [usb_read()] hands to [send_command]: at most
    [USB_BUF_LEN] bytes of the device's answer, or zeros when the read
    failed or the device stayed silent. *)
Definition delivered (r : option read_result) : list Z :=
  match r with
  | Some (Packet p) => take USB_BUF_LEN p
  | _ => replicate USB_BUF_LEN 0
  end.

(** What an iteration of the loop does with the buffer it read, for a
    command that starts with the tag [g, o]. *)
Inductive verdict : Type :=
  | Accept      (* the correlation test holds: break *)
  | Abort       (* the device-info error packet: return None *)
  | Resend      (* anything else with a header: write the command again *)
  | Malformed.  (* fewer than three bytes: IndexError *)

Definition classify (g o : Z) (pkt : list Z) : verdict :=
  match pkt with
  | a :: b :: c :: _ =>
      if (a =? Z.lor g 1) && (b =? o) then Accept
      else if ((a =? 0x81) && (b =? 0x01)) && negb (c =? 0) then Abort
      else Resend
  | _ => Malformed
  end.

(** A read whose buffer is thrown away and answered by a resend. *)
Definition discarded (g o : Z) (r : read_result) : Prop :=
  classify g o (delivered (Some r)) = Resend.

(** The response object built from a buffer that has a header. *)
Definition response_of (pkt : list Z) (data_len : nat) : UsbResponse :=
  mkUsbResponse (pkt !!! 0%nat) (pkt !!! 1%nat) (pkt !!! 2%nat)
                (slice 3 (3 + data_len) pkt).

(** The world after one more [usb_read()]. *)
Definition after_read (w : world) : world :=
  World (tail (script w)) (trace w ++ [EvRead USB_BUF_LEN 200]) (stdout w).

(** The transport calls of [k] discard-and-resend rounds. *)
Definition resend_rounds (command : list Z) (k : nat) : list event :=
  concat (replicate k [EvRead USB_BUF_LEN 200; EvWrite command]).

(** The packets written, in order. *)
Definition writes_of (tr : list event) : list (list Z) :=
  omap (λ e, match e with EvWrite p => Some p | EvRead _ _ => None end) tr.

(** An event of the transport that is not a read of another size or with
    another timeout than [usb_read()]'s defaults. *)
Definition full_buffer_read (e : event) : Prop :=
  match e with
  | EvRead len timeout => len = USB_BUF_LEN ∧ timeout = 200%nat
  | EvWrite _ => True
  end.

(** The six bytes [struct.pack("<BHBBB", command, length, 0, 0, 0)] gives. *)
Definition uart_header (command : Z) (len : nat) : list Z :=
  [command; Z.of_nat len mod 256; Z.of_nat len / 256; 0; 0; 0].

(** The rumble bytes [send_bluetooth_command] puts after the command. *)
Definition neutral_rumble : list Z :=
  [0x00; 0x00; 0x01; 0x40; 0x40; 0x00; 0x01; 0x40; 0x40].

(** Two devices for the examples: one answers a relayed bluetooth command
    with 5 payload bytes after the 7 + 15 header bytes, one with 13. *)
Definition short_reply : world :=
  World [Packet ([0x81; 0x92; 0] ++ replicate 7 0xaa ++ replicate 15 0xbb
                   ++ [1; 2; 3; 4; 5])] [] [].

Definition long_reply : world :=
  World [Packet ([0x81; 0x92; 0] ++ replicate 7 0xaa ++ replicate 15 0xbb
                   ++ [1; 2; 3; 4; 5; 6; 7; 8; 9; 10; 11; 12; 13])] [] [].

(** A device that is silent once and then sends the device-info error. *)
Definition failing_device : world :=
  World ([ReadFails] ++ Packet [0x81; 0x01; 0x07] :: []) [] [].

(** ** Discovery and setup

    The host side of the class: PyUSB's device lookup, the descriptors of
    the device found and the attributes of the controller object.  These
    methods pass the object and the host explicitly; they end by
    returning, by raising, or by exhausting the fuel of the waiting loop. *)

Definition DEVICE_ID_CHARGING_GRIP : Z * Z := (0x057e, 0x200e).
Definition DEVICE_ID_BOOTLOADER    : Z * Z := (0x057e, 0x200f).

(** [usb.util.ENDPOINT_IN] *)
Definition ENDPOINT_IN : Z := 0x80.

(** An interface of the active configuration, with the
    [bEndpointAddress] of each of its endpoints, in order. *)
Record usb_interface : Type := mkInterface {
  bInterfaceNumber : Z;
  endpoints        : list Z
}.

(** A device as [usb.core.find] returns it: its interfaces and the
    numbers of those a kernel driver is bound to. *)
Record usb_device : Type := mkDevice {
  interfaces    : list usb_interface;
  kernel_driver : list Z
}.

Inductive host_event : Type :=
  | EvFind (idVendor idProduct : Z)
  | EvSleep (seconds : Z)
  | EvDetach (interface : Z).

Record host : Type := Host {
  found      : list (option usb_device);  (* the answers of the coming finds *)
  host_trace : list host_event            (* host calls so far, oldest first *)
}.

(** The attributes of a [USBSwitchController] object. *)
Record controller : Type := mkController {
  lock_dfu_command : bool;
  device_id        : Z * Z;
  dev              : option usb_device;
  endpoint_in      : option Z;
  endpoint_out     : option Z
}.

Inductive host_exn : Type :=
  | IOError
  | NameError         (* a name that is bound nowhere *)
  | AttributeError    (* a method of None *)
  | MissingArgument   (* TypeError: missing required positional argument *)
  | ChannelError (e : exn).

Inductive host_outcome (A : Type) : Type :=
  | Returns (a : A)
  | Throws (e : host_exn)
  | Waits.
Arguments Returns {A} a.
Arguments Throws {A} e.
Arguments Waits {A}.

Definition host_log (e : host_event) (h : host) : host :=
  Host (found h) (host_trace h ++ [e]).

(** [usb.core.find(idVendor=vid, idProduct=pid)]: the device, or [None]
    when there is none (yet). *)
Definition usb_core_find (vid pid : Z) (h : host) : option usb_device * host :=
  match found h with
  | d :: later => (d, Host later (host_trace h ++ [EvFind vid pid]))
  | [] => (None, host_log (EvFind vid pid) h)
  end.

(** [time.sleep(seconds)] *)
Definition time_sleep (seconds : Z) (h : host) : host :=
  host_log (EvSleep seconds) h.

Definition set_dev (d : option usb_device) (s : controller) : controller :=
  mkController (lock_dfu_command s) (device_id s) d
               (endpoint_in s) (endpoint_out s).

Definition set_endpoints (e : option Z * option Z) (s : controller)
    : controller :=
  mkController (lock_dfu_command s) (device_id s) (dev s) (fst e) (snd e).

(** The [while s.dev is None] loop of [connect_to_device]. *)
Fixpoint connect_loop (fuel : nat) (vid pid : Z) (wait_for_device : bool)
    (inter_connection_delay : Z) (s : controller) (h : host)
    : host_outcome unit * controller * host :=
  match dev s with
  | Some _ => (Returns (), s, h)
  | None =>
      match fuel with
      | O => (Waits, s, h)
      | S fuel' =>
          let (d, h) := usb_core_find vid pid h in
          let s := set_dev d s in
          if negb wait_for_device then (Throws IOError, s, h)
          else
            connect_loop fuel' vid pid wait_for_device inter_connection_delay
              s (time_sleep inter_connection_delay h)
      end
  end.

(** [connect_to_device(s, vid, pid, wait_for_device=True,
    inter_connection_delay=1)] *)
Definition connect_to_device (fuel : nat) (s : controller) (vid pid : Z)
    (wait_for_device : bool) (inter_connection_delay : Z) (h : host)
    : host_outcome unit * controller * host :=
  connect_loop fuel vid pid wait_for_device inter_connection_delay
    (set_dev None s) h.

(** One pass of the inner [for endpoint in interface.endpoints()]. *)
Definition note_endpoint (e : option Z * option Z) (address : Z)
    : option Z * option Z :=
  if negb (Z.land address ENDPOINT_IN =? 0) then (Some address, snd e)
  else (fst e, Some address).

(** One pass of the outer [for interface in conf.interfaces()]. *)
Definition note_interface (interface_number : Z) (e : option Z * option Z)
    (interface : usb_interface) : option Z * option Z :=
  if negb (bInterfaceNumber interface =? interface_number) then e
  else fold_left note_endpoint (endpoints interface) e.

(** [_determine_endpoints(self, interface_number)] *)
Definition _determine_endpoints (s : controller) (interface_number : Z)
    : host_outcome unit * controller :=
  let s := set_endpoints (None, None) s in
  match dev s with
  | None => (Throws AttributeError, s)
  | Some d =>
      (Returns (),
       set_endpoints
         (fold_left (note_interface interface_number) (interfaces d)
                    (endpoint_in s, endpoint_out s)) s)
  end.

(** [dev.detach_kernel_driver(interface)]: PyUSB raises [USBError] when
    no kernel driver is bound to the interface. *)
Definition dev_detach_kernel_driver (d : usb_device) (interface : Z)
    (h : host) : host_outcome unit * host :=
  let h := host_log (EvDetach interface) h in
  if bool_decide (interface ∈ kernel_driver d) then (Returns (), h)
  else (Throws (ChannelError USBError), h).

(** [detach_kernel_driver(self, interface)] *)
Definition detach_kernel_driver (s : controller) (interface : Z) (h : host)
    : host_outcome unit * host :=
  match dev s with
  | None => (Throws AttributeError, h)
  | Some d =>
      match dev_detach_kernel_driver d interface h with
      | (Throws (ChannelError USBError), h) => (Returns (), h)
      | r => r
      end
  end.

(** [__init__(self, interface=0, wait_for_device=True)] *)
Definition __init__ (fuel : nat) (interface : Z) (wait_for_device : bool)
    (h : host) : host_outcome controller * host :=
  let s := mkController true DEVICE_ID_CHARGING_GRIP None None None in
  match connect_to_device fuel s (fst (device_id s)) (snd (device_id s))
          wait_for_device 1 h with
  | (Returns _, s, h) =>
      match _determine_endpoints s interface with
      | (Returns _, s) =>
          match endpoint_in s, endpoint_out s with
          | Some _, Some _ =>
              match detach_kernel_driver s interface h with
              | (Returns _, h) => (Returns s, h)
              | (Throws e, h) => (Throws e, h)
              | (Waits, h) => (Waits, h)
              end
          | _, _ => (Throws IOError, h)
          end
      | (Throws e, _) => (Throws e, h)
      | (Waits, _) => (Waits, h)
      end
  | (Throws e, _, h) => (Throws e, h)
  | (Waits, _, h) => (Waits, h)
  end.



(** [switch_to_dfu(self)]: past the lock the method calls
    [s.send_command], and [s] is not a name of its scope. *)
Definition switch_to_dfu (s : controller) (w : world)
    : host_outcome unit * world :=
  if lock_dfu_command s then (Throws IOError, w)
  else (Throws NameError, w).

(** The endpoint addresses [_determine_endpoints] looks at, in order. *)
Definition candidate_endpoints (d : usb_device) (interface_number : Z)
    : list Z :=
  flat_map endpoints
    (filter (λ i, bInterfaceNumber i = interface_number) (interfaces d)).

(** The last IN endpoint and the last OUT endpoint among addresses. *)
Definition last_in (addresses : list Z) : option Z :=
  last (filter (λ a, Z.land a ENDPOINT_IN ≠ 0) addresses).

Definition last_out (addresses : list Z) : option Z :=
  last (filter (λ a, Z.land a ENDPOINT_IN = 0) addresses).

(** A charging grip for the examples: one interface per joycon, each with
    an IN and an OUT endpoint. *)
Definition example_grip : usb_device :=
  mkDevice [mkInterface 0 [0x81; 0x01]; mkInterface 1 [0x82; 0x02]] [0; 1].

(** The host calls of [k] rounds of looking for the device and sleeping. *)
Definition find_rounds (vid pid delay : Z) (k : nat) : list host_event :=
  concat (replicate k [EvFind vid pid; EvSleep delay]).

(** ** Lemmas on the transport and the loop *)

Ltac eval_powers_of_2 :=
  repeat match goal with
         | |- context [2 ^ ?k] =>
             let v := eval vm_compute in (2 ^ k) in change (2 ^ k) with v
         end.

Lemma usb_read_default (w : world) :
  usb_read None None w = (Ret (delivered (head (script w))), after_read w).
Proof.
  destruct w as [[|[p|] s] tr out]; reflexivity.
Qed.

Lemma send_command_loop_step (fuel : nat) (g o : Z) (payload : list Z)
    (n : nat) (w : world) :
  send_command_loop (S fuel) (g :: o :: payload) n w =
    let pkt := delivered (head (script w)) in
    match classify g o pkt with
    | Accept => (Ret (Break (response_of pkt n)), after_read w)
    | Abort => (Ret ReturnNone, after_read w)
    | Resend =>
        send_command_loop fuel (g :: o :: payload) n
          (log (EvWrite (g :: o :: payload)) (after_read w))
    | Malformed => (Raise IndexError, after_read w)
    end.
Proof.
  cbn [send_command_loop]. unfold mbind at 1, M_bind at 1.
  rewrite usb_read_default. cbv zeta.
  destruct (delivered (head (script w))) as [|a [|b [|c pkt]]]; try reflexivity.
  unfold classify, response_of. cbn.
  unfold mbind, M_bind, mret, M_ret, correlation_test, device_error_test. cbn.
  destruct (a =? Z.lor g 1); cbn; [destruct (b =? o); cbn|]; try reflexivity.
  all: destruct ((a =? 129) && (b =? 1) && negb (c =? 0)); reflexivity.
Qed.

Lemma lor_1_nonzero (g : Z) : Z.lor g 1 ≠ 0.
Proof. intros H. apply Z.lor_eq_0_iff in H. lia. Qed.

Lemma classify_silence (g o : Z) : classify g o (delivered None) = Resend.
Proof.
  pose proof (lor_1_nonzero g) as Hg.
  change (delivered None) with (0 :: 0 :: 0 :: replicate 61 0).
  unfold classify. destruct (Z.eqb_spec 0 (Z.lor g 1)) as [E|_]; [|reflexivity].
  symmetry in E. contradiction.
Qed.

Lemma discarded_ReadFails (g o : Z) : discarded g o ReadFails.
Proof. exact (classify_silence g o). Qed.

Lemma header_take (pkt : list Z) (a b c : Z) :
  pkt !! 0%nat = Some a → pkt !! 1%nat = Some b → pkt !! 2%nat = Some c →
  ∃ tl, take USB_BUF_LEN pkt = a :: b :: c :: tl.
Proof.
  destruct pkt as [|a' [|b' [|c' tl]]]; cbn; try discriminate.
  intros [= ->] [= ->] [= ->]. eauto.
Qed.

Lemma classify_accept (g o st : Z) (pkt : list Z) (n : nat) :
  pkt !! 0%nat = Some (Z.lor g 1) → pkt !! 1%nat = Some o →
  pkt !! 2%nat = Some st →
  classify g o (take USB_BUF_LEN pkt) = Accept ∧
  response_of (take USB_BUF_LEN pkt) n =
    mkUsbResponse (Z.lor g 1) o st (slice 3 (3 + n) (take USB_BUF_LEN pkt)).
Proof.
  intros H0 H1 H2. destruct (header_take _ _ _ _ H0 H1 H2) as [tl ->].
  unfold classify, response_of. cbn. rewrite !Z.eqb_refl. auto.
Qed.

Lemma classify_abort (g o st : Z) (pkt : list Z) :
  pkt !! 0%nat = Some 0x81 → pkt !! 1%nat = Some 0x01 →
  pkt !! 2%nat = Some st → st ≠ 0 →
  classify g o (take USB_BUF_LEN pkt) =
    if (Z.lor g 1 =? 0x81) && (o =? 0x01) then Accept else Abort.
Proof.
  intros H0 H1 H2 Hst. destruct (header_take _ _ _ _ H0 H1 H2) as [tl ->].
  unfold classify. rewrite (Z.eqb_sym 129), (Z.eqb_sym 1 o).
  destruct ((Z.lor g 1 =? 129) && (o =? 1)); [reflexivity|].
  cbn. destruct (Z.eqb_spec st 0); [contradiction|reflexivity].
Qed.

Section Exchange.

Variables (g o : Z) (payload : list Z) (n : nat).

Local Abbreviation command := (g :: o :: payload).

Lemma loop_discards (pre rest : list read_result) (fuel : nat)
    (tr : list event) (out : list string) :
  Forall (discarded g o) pre →
  send_command_loop (length pre + fuel) command n (World (pre ++ rest) tr out) =
  send_command_loop fuel command n
    (World rest (tr ++ resend_rounds command (length pre)) out).
Proof.
  intros Hpre. revert tr.
  induction Hpre as [|r pre Hr _ IH]; intros tr.
  - cbn. unfold resend_rounds. cbn. by rewrite app_nil_r.
  - change (length (r :: pre) + fuel)%nat with (S (length pre + fuel)).
    rewrite send_command_loop_step. cbn [script app head].
    cbv zeta. rewrite Hr. unfold after_read, log. cbn [script trace stdout tail].
    rewrite IH. do 2 f_equal.
    unfold resend_rounds. cbn. by rewrite <- !app_assoc.
Qed.

Lemma loop_silent (fuel : nat) (s : list read_result)
    (tr : list event) (out : list string) :
  Forall (discarded g o) s →
  send_command_loop fuel command n (World s tr out) =
    (OutOfFuel, World (drop fuel s) (tr ++ resend_rounds command fuel) out).
Proof.
  revert s tr. induction fuel as [|fuel IH]; intros s tr Hs.
  - cbn. unfold resend_rounds, out_of_fuel. cbn. by rewrite app_nil_r.
  - rewrite send_command_loop_step. cbn [script]. cbv zeta.
    assert (classify g o (delivered (head s)) = Resend) as ->.
    { destruct Hs; [apply classify_silence | assumption]. }
    unfold after_read, log. cbn [script trace stdout].
    rewrite IH by (destruct Hs; [constructor | assumption]).
    f_equal. f_equal.
    + destruct s; [by destruct fuel | done].
    + unfold resend_rounds. cbn. by rewrite <- !app_assoc.
Qed.

Lemma send_command_run (fuel : nat) (w : world) :
  n ≠ 0%nat →
  send_command fuel command n w =
    match send_command_loop fuel command n (log (EvWrite command) w) with
    | (Ret ReturnNone, w') => (Ret None, w')
    | (Ret (Break resp), w') =>
        (Ret (Some (data resp)),
         World (script w') (trace w')
           (stdout w' ++ if status resp =? 0 then [] else [warning resp]))
    | (Raise e, w') => (Raise e, w')
    | (OutOfFuel, w') => (OutOfFuel, w')
    end.
Proof.
  intros Hn. unfold send_command, mbind, M_bind, usb_write, dev_write.
  destruct (Nat.eqb_spec n 0) as [|_]; [contradiction|].
  destruct (send_command_loop fuel command n (log (EvWrite command) w))
    as [[[resp|]| |] w']; try reflexivity.
  destruct (status resp =? 0); cbn; [|reflexivity].
  unfold mret, M_ret. destruct w'. cbn. by rewrite app_nil_r.
Qed.

(** The last buffer of an exchange, after [pre] was discarded. *)
Lemma send_command_last (pre rest : list read_result) (r : read_result)
    (fuel : nat) (tr : list event) (out : list string) :
  n ≠ 0%nat → Forall (discarded g o) pre →
  let pkt := delivered (Some r) in
  let tr' := tr ++ EvWrite command :: resend_rounds command (length pre)
                ++ [EvRead USB_BUF_LEN 200] in
  send_command (length pre + S fuel) command n
      (World (pre ++ r :: rest) tr out) =
    match classify g o pkt with
    | Accept =>
        (Ret (Some (slice 3 (3 + n) pkt)),
         World rest tr'
           (out ++ if pkt !!! 2%nat =? 0 then []
                   else [warning (response_of pkt n)]))
    | Abort => (Ret None, World rest tr' out)
    | Malformed => (Raise IndexError, World rest tr' out)
    | Resend =>
        send_command (length pre + S fuel) command n
          (World (pre ++ r :: rest) tr out)
    end.
Proof.
  intros Hn Hpre pkt tr'.
  destruct (classify g o pkt) eqn:Hc; [| | reflexivity |].
  all: rewrite send_command_run by assumption.
  all: unfold log; cbn [script trace stdout].
  all: rewrite loop_discards by assumption.
  all: rewrite send_command_loop_step.
  all: cbn [script head]; cbv zeta; fold pkt; rewrite Hc.
  all: unfold after_read; cbn [script trace stdout tail response_of data status].
  all: subst tr'; rewrite <- !app_assoc; reflexivity.
Qed.

End Exchange.

(** ** The command channel *)

Lemma writes_of_app (t1 t2 : list event) :
  writes_of (t1 ++ t2) = writes_of t1 ++ writes_of t2.
Proof. apply omap_app. Qed.

Lemma writes_of_resend_rounds (command : list Z) (k : nat) :
  writes_of (resend_rounds command k) = replicate k command.
Proof.
  induction k as [|k IH]; [reflexivity|].
  change (command :: writes_of (resend_rounds command k)
          = command :: replicate k command).
  by rewrite IH.
Qed.

Lemma drop_own_length {A} (l1 l2 : list A) : drop (length l1) (l1 ++ l2) = l2.
Proof. by rewrite drop_app_length. Qed.

(** C1: once the earlier reads were discarded, a packet whose byte 0 is
    [g | 1] and whose byte 1 is [o] (with its status byte [st]) ends
    [send_command] with that packet's data, however many reads [pre] were
    discarded before it. *)
Theorem correlated_response_accepted (g o : Z) (payload : list Z) (n : nat)
    (pre rest : list read_result) (pkt : list Z) (st : Z) (fuel : nat)
    (tr : list event) (out : list string) :
  n ≠ 0%nat →
  Forall (discarded g o) pre →
  pkt !! 0%nat = Some (Z.lor g 1) →
  pkt !! 1%nat = Some o →
  pkt !! 2%nat = Some st →
  (length pre < fuel)%nat →
  ∃ w', send_command fuel (g :: o :: payload) n
          (World (pre ++ Packet pkt :: rest) tr out)
        = (Ret (Some (slice 3 (3 + n) (take USB_BUF_LEN pkt))), w')
        ∧ script w' = rest.
Proof.
  intros Hn Hpre H0 H1 H2 Hfuel.
  replace fuel with (length pre + S (fuel - S (length pre)))%nat by lia.
  rewrite send_command_last by assumption. cbv zeta.
  destruct (classify_accept g o st pkt n H0 H1 H2) as [Hc _].
  cbn [delivered]. rewrite Hc. eauto.
Qed.

Lemma correlated_response_accepted_witness :
  ∃ w', send_command 5 [0x82; 0x02] 4
          (World ([ReadFails; Packet [0x81; 0x92; 0; 7]; Packet [0x83; 0x01; 0; 7]]
                  ++ Packet [0x83; 0x02; 0; 1; 2; 3; 4; 5] :: [ReadFails]) [] [])
        = (Ret (Some (slice 3 (3 + 4) (take USB_BUF_LEN [0x83; 0x02; 0; 1; 2; 3; 4; 5]))), w')
        ∧ script w' = [ReadFails].
Proof.
  apply (correlated_response_accepted 0x82 0x02 [] 4
           [ReadFails; Packet [0x81; 0x92; 0; 7]; Packet [0x83; 0x01; 0; 7]]
           [ReadFails] [0x83; 0x02; 0; 1; 2; 3; 4; 5] 0 5 [] []).
  - lia.
  - repeat constructor.
  - reflexivity.
  - reflexivity.
  - reflexivity.
  - cbn. lia.
Defined.

(** C2: every read that is discarded is followed at once, before the next
    read, by a write of the same command bytes; when the exchange ends (on
    the first read [r] that is not discarded) the command has been written
    once plus once per discarded read, and nothing else was written. *)
Theorem resend_per_discarded_packet (g o : Z) (payload : list Z) (n : nat)
    (pre rest : list read_result) (r : read_result) (fuel : nat)
    (tr : list event) (out : list string) :
  n ≠ 0%nat →
  Forall (discarded g o) pre →
  ¬ discarded g o r →
  (length pre < fuel)%nat →
  let command := g :: o :: payload in
  ∃ res w',
    send_command fuel command n (World (pre ++ r :: rest) tr out) = (res, w')
    ∧ res ≠ OutOfFuel
    ∧ script w' = rest
    ∧ trace w' = tr ++ EvWrite command
                      :: resend_rounds command (length pre)
                      ++ [EvRead USB_BUF_LEN 200]
    ∧ writes_of (drop (length tr) (trace w'))
        = command :: replicate (length pre) command.
Proof.
  intros Hn Hpre Hr Hfuel command.
  replace fuel with (length pre + S (fuel - S (length pre)))%nat by lia.
  unfold command. rewrite send_command_last by assumption. cbv zeta.
  unfold discarded in Hr.
  destruct (classify g o (delivered (Some r))); [| |contradiction|].
  all: eexists _, _; split; [reflexivity|]; cbn [script trace].
  all: repeat split; try discriminate.
  all: rewrite drop_own_length; cbn; rewrite writes_of_app.
  all: by rewrite writes_of_resend_rounds, app_nil_r.
Qed.

Lemma resend_per_discarded_packet_witness :
  ∃ res w',
    send_command 4 [0x80; 0x92; 9] 8
      (World ([Packet [0x81; 0x02; 0]; ReadFails] ++ Packet [0x81; 0x01; 3] :: [])
             [] [])
      = (res, w')
    ∧ res ≠ OutOfFuel
    ∧ script w' = []
    ∧ trace w' = [] ++ EvWrite [0x80; 0x92; 9]
                      :: resend_rounds [0x80; 0x92; 9] 2
                      ++ [EvRead USB_BUF_LEN 200]
    ∧ writes_of (drop 0 (trace w'))
        = [0x80; 0x92; 9] :: replicate 2 [0x80; 0x92; 9].
Proof.
  apply (resend_per_discarded_packet 0x80 0x92 [9] 8
           [Packet [0x81; 0x02; 0]; ReadFails] [] (Packet [0x81; 0x01; 3])
           4 [] []).
  - lia.
  - repeat constructor.
  - discriminate.
  - cbn. lia.
Defined.

(** C3, as the specification states it, fails: for the device-info command
    the packet [0x81, 0x01, status 5] passes the correlation test, which
    runs first, so [send_command] returns its data instead of [None]. *)
Lemma device_info_error_packet_is_accepted :
  send_command 1 COMMAND_DEVICE_INFO 8
    (World [Packet [0x81; 0x01; 0x05; 1; 2; 3; 4; 5; 6; 7; 8]] [] [])
  = (Ret (Some [1; 2; 3; 4; 5; 6; 7; 8]),
     World [] [EvWrite [0x80; 0x01]; EvRead 64 200] ["resp 81:01 error 5"])
  ∧ fst (send_command 1 COMMAND_DEVICE_INFO 8
           (World [Packet [0x81; 0x01; 0x05; 1; 2; 3; 4; 5; 6; 7; 8]] [] []))
    ≠ Ret None.
Proof. split; [reflexivity | discriminate]. Qed.

(** C3, amended: when the first packet read is [0x81, 0x01] with a nonzero
    status, a command whose tag it answers ([g | 1 = 0x81] and [o = 0x01],
    the device-info command) gets the packet's data back, with the status
    warning printed; every other command is aborted with [None].  Either
    way the command was written once: no resend. *)
Theorem device_error_packet_first (g o : Z) (payload : list Z) (n : nat)
    (pkt : list Z) (st : Z) (rest : list read_result) (fuel : nat)
    (tr : list event) (out : list string) :
  n ≠ 0%nat →
  pkt !! 0%nat = Some 0x81 →
  pkt !! 1%nat = Some 0x01 →
  pkt !! 2%nat = Some st →
  st ≠ 0 →
  let command := g :: o :: payload in
  let tr' := tr ++ [EvWrite command; EvRead USB_BUF_LEN 200] in
  let dat := slice 3 (3 + n) (take USB_BUF_LEN pkt) in
  send_command (S fuel) command n (World (Packet pkt :: rest) tr out) =
    if (Z.lor g 1 =? 0x81) && (o =? 0x01)
    then (Ret (Some dat),
          World rest tr' (out ++ [warning (mkUsbResponse 0x81 0x01 st dat)]))
    else (Ret None, World rest tr' out).
Proof.
  intros Hn H0 H1 H2 Hst command tr' dat.
  pose proof (send_command_last g o payload n [] rest (Packet pkt) fuel tr out
                Hn (List.Forall_nil _)) as Hrun.
  cbv zeta in Hrun. cbn [length app Nat.add delivered] in Hrun.
  rewrite (classify_abort g o st pkt H0 H1 H2 Hst) in Hrun.
  fold command in Hrun. rewrite Hrun.
  destruct ((Z.lor g 1 =? 129) && (o =? 1)) eqn:Hc; [|reflexivity].
  apply andb_prop in Hc as [Hg Ho].
  apply Z.eqb_eq in Hg. apply Z.eqb_eq in Ho. subst o.
  destruct (classify_accept g 1 st pkt n) as [_ Hresp]; [congruence|done..|].
  rewrite Hresp. rewrite Hg.
  destruct (header_take _ _ _ _ H0 H1 H2) as [tl Htl].
  subst dat. rewrite Htl. cbn [lookup_total list_lookup_total].
  destruct (Z.eqb_spec st 0); [contradiction|reflexivity].
Qed.

Lemma device_error_packet_first_witness :
  send_command 1 COMMAND_DEVICE_INFO 8
      (World (Packet [0x81; 0x01; 0x05; 1; 2; 3; 4; 5; 6; 7; 8] :: []) [] [])
    = (Ret (Some [1; 2; 3; 4; 5; 6; 7; 8]),
       World [] [EvWrite [0x80; 0x01]; EvRead 64 200] ["resp 81:01 error 5"])
  ∧ send_command 1 COMMAND_SEND_UART_COMMAND 8
      (World (Packet [0x81; 0x01; 0x05; 1; 2; 3; 4; 5; 6; 7; 8] :: []) [] [])
    = (Ret None, World [] [EvWrite [0x80; 0x92]; EvRead 64 200] []).
Proof.
  split.
  - apply (device_error_packet_first 0x80 0x01 [] 8
             [0x81; 0x01; 0x05; 1; 2; 3; 4; 5; 6; 7; 8] 0x05 [] 0 [] []);
      [lia | reflexivity | reflexivity | reflexivity | lia].
  - apply (device_error_packet_first 0x80 0x92 [] 8
             [0x81; 0x01; 0x05; 1; 2; 3; 4; 5; 6; 7; 8] 0x05 [] 0 [] []);
      [lia | reflexivity | reflexivity | reflexivity | lia].
Defined.

Lemma loop_trace (g o : Z) (payload : list Z) (n fuel : nat) (w : world) :
  ∃ new, trace (snd (send_command_loop fuel (g :: o :: payload) n w))
           = trace w ++ new
         ∧ Forall full_buffer_read new.
Proof.
  revert w. induction fuel as [|fuel IH]; intros w.
  - exists []. cbn. by rewrite app_nil_r.
  - rewrite send_command_loop_step. cbv zeta.
    destruct (classify g o _).
    1,2,4: exists [EvRead USB_BUF_LEN 200]; cbn; by repeat constructor.
    destruct (IH (log (EvWrite (g :: o :: payload)) (after_read w)))
      as (new & -> & Hnew).
    exists (EvRead USB_BUF_LEN 200 :: EvWrite (g :: o :: payload) :: new).
    cbn. rewrite <- !app_assoc. by repeat constructor.
Qed.

(** C4, as the specification states it, fails: asked for an 8-byte
    response, [send_command] reads 64 bytes, not 11, and the buffer that
    stands for a failed read has 64 zeros. *)
Lemma read_size_is_not_response_length_plus_3 :
  send_command 1 COMMAND_DEVICE_INFO 8 (World [ReadFails] [] [])
  = (OutOfFuel,
     World [] [EvWrite [0x80; 0x01]; EvRead 64 200; EvWrite [0x80; 0x01]] [])
  ∧ EvRead 64 200 ≠ EvRead (8 + 3) 200
  ∧ fst (usb_read None None (World [ReadFails] [] [])) = Ret (replicate 64 0)
  ∧ length (replicate 64 0) ≠ (8 + 3)%nat.
Proof. repeat split; try reflexivity; try discriminate. Qed.

(** C4, amended: whatever response length is asked for, every read of
    [send_command] requests [USB_BUF_LEN] = 64 bytes with a 200 ms
    timeout; a read that fails yields 64 zero bytes, and the loop goes on
    with a resend. *)
Theorem reads_request_whole_buffer (g o : Z) (payload : list Z) (n fuel : nat)
    (w : world) :
  let command := g :: o :: payload in
  (∃ new, trace (snd (send_command fuel command n w)) = trace w ++ new
          ∧ Forall full_buffer_read new)
  ∧ (∀ rest tr out,
       usb_read None None (World (ReadFails :: rest) tr out)
       = (Ret (replicate 64 0), World rest (tr ++ [EvRead 64 200]) out))
  ∧ (∀ rest tr out,
       send_command_loop (S fuel) command n (World (ReadFails :: rest) tr out)
       = send_command_loop fuel command n
           (World rest (tr ++ [EvRead 64 200; EvWrite command]) out)).
Proof.
  intros command. split; [|split].
  - destruct (Nat.eq_dec n 0%nat) as [->|Hn].
    + exists [EvWrite command]. cbn. by repeat constructor.
    + unfold command. rewrite send_command_run by assumption.
      destruct (loop_trace g o payload n fuel
                  (log (EvWrite (g :: o :: payload)) w)) as (new & Ht & Hnew).
      exists (EvWrite (g :: o :: payload) :: new).
      split; [|by constructor].
      destruct (send_command_loop _ _ _ _) as [[[resp|]| |] w'];
        cbn in Ht |- *; rewrite Ht, <- app_assoc; reflexivity.
  - reflexivity.
  - intros rest tr out. unfold command.
    rewrite send_command_loop_step. cbn [script head]. cbv zeta.
    rewrite classify_silence. unfold after_read, log. cbn.
    by rewrite <- app_assoc.
Qed.

Lemma send_command_accepts (g o : Z) (payload : list Z) (n : nat)
    (pre rest : list read_result) (pkt : list Z) (st : Z) (fuel : nat)
    (tr : list event) (out : list string) :
  n ≠ 0%nat →
  Forall (discarded g o) pre →
  pkt !! 0%nat = Some (Z.lor g 1) →
  pkt !! 1%nat = Some o →
  pkt !! 2%nat = Some st →
  (length pre < fuel)%nat →
  let command := g :: o :: payload in
  let dat := slice 3 (3 + n) (take USB_BUF_LEN pkt) in
  send_command fuel command n (World (pre ++ Packet pkt :: rest) tr out)
    = (Ret (Some dat),
       World rest
         (tr ++ EvWrite command :: resend_rounds command (length pre)
             ++ [EvRead USB_BUF_LEN 200])
         (out ++ if st =? 0 then []
                 else [warning (mkUsbResponse (Z.lor g 1) o st dat)])).
Proof.
  intros Hn Hpre H0 H1 H2 Hfuel command dat.
  replace fuel with (length pre + S (fuel - S (length pre)))%nat by lia.
  unfold command. rewrite send_command_last by assumption. cbv zeta.
  destruct (classify_accept g o st pkt n H0 H1 H2) as [Hc Hresp].
  cbn [delivered]. rewrite Hc, Hresp.
  assert (take USB_BUF_LEN pkt !!! 2%nat = st) as ->; [|reflexivity].
  destruct (header_take _ _ _ _ H0 H1 H2) as [tl ->]. reflexivity.
Qed.

(** C7: a correlated response with a nonzero status makes [send_command]
    print one warning line and return the response's data; the value
    returned, the transport traffic and the reads consumed are those of the
    same packet with status zero, where nothing is printed. *)
Theorem nonzero_status_still_returns_data (g o : Z) (payload : list Z)
    (n : nat) (pre rest : list read_result) (pkt : list Z) (st : Z)
    (fuel : nat) (tr : list event) (out : list string) :
  n ≠ 0%nat →
  Forall (discarded g o) pre →
  pkt !! 0%nat = Some (Z.lor g 1) →
  pkt !! 1%nat = Some o →
  pkt !! 2%nat = Some st →
  st ≠ 0 →
  (length pre < fuel)%nat →
  let command := g :: o :: payload in
  let dat := slice 3 (3 + n) (take USB_BUF_LEN pkt) in
  let tr' := tr ++ EvWrite command :: resend_rounds command (length pre)
                ++ [EvRead USB_BUF_LEN 200] in
  send_command fuel command n (World (pre ++ Packet pkt :: rest) tr out)
    = (Ret (Some dat),
       World rest tr' (out ++ [warning (mkUsbResponse (Z.lor g 1) o st dat)]))
  ∧ send_command fuel command n
      (World (pre ++ Packet (<[2%nat := 0]> pkt) :: rest) tr out)
    = (Ret (Some dat), World rest tr' out).
Proof.
  intros Hn Hpre H0 H1 H2 Hst Hfuel command dat tr'.
  destruct pkt as [|a [|b [|c tl]]]; try discriminate.
  cbn in H0, H1, H2. injection H0 as ->. injection H1 as ->. injection H2 as ->.
  split.
  - unfold command. rewrite (send_command_accepts g o payload n pre rest _ st)
      by done.
    destruct (Z.eqb_spec st 0); [contradiction|reflexivity].
  - unfold command. rewrite (send_command_accepts g o payload n pre rest _ 0)
      by done.
    cbn. by rewrite app_nil_r.
Qed.

Lemma nonzero_status_still_returns_data_witness :
  send_command 3 [0x80; 0x02] 4
      (World ([ReadFails] ++ Packet [0x81; 0x02; 0x0c; 1; 2; 3; 4; 5; 6] :: [])
             [] [])
    = (Ret (Some [1; 2; 3; 4]),
       World [] [EvWrite [0x80; 0x02]; EvRead 64 200; EvWrite [0x80; 0x02];
                 EvRead 64 200]
             ["resp 81:02 error c"])
  ∧ send_command 3 [0x80; 0x02] 4
      (World ([ReadFails] ++ Packet [0x81; 0x02; 0; 1; 2; 3; 4; 5; 6] :: [])
             [] [])
    = (Ret (Some [1; 2; 3; 4]),
       World [] [EvWrite [0x80; 0x02]; EvRead 64 200; EvWrite [0x80; 0x02];
                 EvRead 64 200]
             []).
Proof.
  apply (nonzero_status_still_returns_data 0x80 0x02 [] 4 [ReadFails] []
           [0x81; 0x02; 0x0c; 1; 2; 3; 4; 5; 6] 0x0c 3 [] []).
  - lia.
  - repeat constructor.
  - reflexivity.
  - reflexivity.
  - reflexivity.
  - lia.
  - cbn. lia.
Defined.

(** C9: when every read fails, the zero buffer passes neither the
    correlation test nor the device-error test, and [send_command] is still
    in its loop after any number [fuel] of iterations, having read [fuel]
    times and resent the command [fuel] times: it never returns. *)
Theorem all_timeouts_never_return (g o : Z) (payload : list Z) (n : nat)
    (k fuel : nat) (tr : list event) (out : list string) :
  n ≠ 0%nat →
  let command := g :: o :: payload in
  classify g o (replicate USB_BUF_LEN 0) = Resend
  ∧ send_command fuel command n (World (replicate k ReadFails) tr out)
    = (OutOfFuel,
       World (replicate (k - fuel) ReadFails)
             (tr ++ EvWrite command :: resend_rounds command fuel) out).
Proof.
  intros Hn command. split; [apply (classify_silence g o)|].
  unfold command. rewrite send_command_run by assumption.
  unfold log. cbn [script trace stdout].
  rewrite loop_silent.
  - by rewrite drop_replicate, <- app_assoc.
  - apply Forall_replicate, discarded_ReadFails.
Qed.

Lemma all_timeouts_never_return_witness :
  classify 0x80 0x01 (replicate USB_BUF_LEN 0) = Resend
  ∧ send_command 3 [0x80; 0x01] 8 (World (replicate 2 ReadFails) [] [])
    = (OutOfFuel,
       World (replicate (2 - 3) ReadFails)
             ([] ++ EvWrite [0x80; 0x01] :: resend_rounds [0x80; 0x01] 3) []).
Proof.
  apply (all_timeouts_never_return 0x80 0x01 [] 8 2 3 [] []). lia.
Defined.

(** ** The UART and bluetooth encapsulations *)

Lemma is_byte_true (x : Z) : 0 ≤ x < 256 → is_byte x = true.
Proof. unfold is_byte. intros [H1 H2]. apply andb_true_intro. lia. Qed.

Lemma struct_pack_uart_header (command : Z) (len : nat) (w : world) :
  0 ≤ command < 256 → Z.of_nat len < 65536 →
  struct_pack_BHBBB command (Z.of_nat len) 0 0 0 w
    = (Ret (uart_header command len), w).
Proof.
  intros Hc Hl. unfold struct_pack_BHBBB. rewrite (is_byte_true _ Hc).
  assert ((0 <=? Z.of_nat len) && (Z.of_nat len <? 65536) = true) as ->
    by (apply andb_true_intro; lia).
  reflexivity.
Qed.

Lemma send_uart_command_run (fuel : nat) (command : Z) (argument : list Z)
    (w : world) :
  0 ≤ command < 256 → Z.of_nat (length argument) < 65536 →
  send_uart_command fuel command argument w =
    match send_command fuel
            (0x80 :: 0x92 :: uart_header command (length argument) ++ argument)
            USB_BUF_LEN w with
    | (Ret (Some raw_response), w') => (Ret (drop 7 raw_response), w')
    | (Ret None, w') => (Raise TypeError, w')
    | (Raise e, w') => (Raise e, w')
    | (OutOfFuel, w') => (OutOfFuel, w')
    end.
Proof.
  intros Hc Hl. unfold send_uart_command.
  unfold mbind at 1, M_bind at 1.
  rewrite struct_pack_uart_header by assumption.
  unfold mbind, M_bind. cbn [py_bytes COMMAND_SEND_UART_COMMAND].
  change (py_bytes COMMAND_SEND_UART_COMMAND w)
    with (Ret COMMAND_SEND_UART_COMMAND, w).
  cbn [COMMAND_SEND_UART_COMMAND app].
  destruct (send_command _ _ _ _) as [[[raw|]| |] w']; reflexivity.
Qed.

Lemma send_bluetooth_command_run (fuel : nat) (command subcommand : Z)
    (argument : list Z) (response_length : nat) (w : world) :
  0 ≤ command < 256 → 0 ≤ subcommand < 256 →
  send_bluetooth_command fuel command subcommand argument response_length w =
    match send_uart_command fuel UART_COMMAND_SEND_BT_CMD
            (command :: neutral_rumble ++ subcommand :: argument) w with
    | (Ret raw_response, w') =>
        (Ret (slice 15 (15 + response_length) raw_response), w')
    | (Raise e, w') => (Raise e, w')
    | (OutOfFuel, w') => (OutOfFuel, w')
    end.
Proof.
  intros Hc Hs. unfold send_bluetooth_command, to_bytes_1.
  rewrite (is_byte_true _ Hc), (is_byte_true _ Hs).
  unfold mbind, M_bind. cbn [mret M_ret].
  change (py_bytes [0; 0; 1; 64; 64; 0; 1; 64; 64] w)
    with (Ret neutral_rumble, w).
  cbn [app].
  destruct (send_uart_command _ _ _ _) as [[raw| |] w']; reflexivity.
Qed.

Lemma send_command_trace (g o : Z) (payload : list Z) (n fuel : nat)
    (w : world) :
  ∃ new, trace (snd (send_command fuel (g :: o :: payload) n w))
           = trace w ++ EvWrite (g :: o :: payload) :: new
         ∧ Forall full_buffer_read new.
Proof.
  destruct (Nat.eq_dec n 0%nat) as [->|Hn].
  - exists []. cbn. by repeat constructor.
  - rewrite send_command_run by assumption.
    destruct (loop_trace g o payload n fuel
                (log (EvWrite (g :: o :: payload)) w)) as (new & Ht & Hnew).
    exists new. split; [|assumption].
    destruct (send_command_loop _ _ _ _) as [[[resp|]| |] w'];
      cbn in Ht |- *; rewrite Ht, <- app_assoc; reflexivity.
Qed.

Lemma send_command_aborts (g o : Z) (payload : list Z) (n : nat)
    (pre rest : list read_result) (pkt : list Z) (st : Z) (fuel : nat)
    (tr : list event) (out : list string) :
  n ≠ 0%nat →
  Forall (discarded g o) pre →
  (Z.lor g 1 =? 0x81) && (o =? 0x01) = false →
  pkt !! 0%nat = Some 0x81 →
  pkt !! 1%nat = Some 0x01 →
  pkt !! 2%nat = Some st →
  st ≠ 0 →
  (length pre < fuel)%nat →
  let command := g :: o :: payload in
  send_command fuel command n (World (pre ++ Packet pkt :: rest) tr out)
    = (Ret None,
       World rest
         (tr ++ EvWrite command :: resend_rounds command (length pre)
             ++ [EvRead USB_BUF_LEN 200])
         out).
Proof.
  intros Hn Hpre Hgo H0 H1 H2 Hst Hfuel command.
  replace fuel with (length pre + S (fuel - S (length pre)))%nat by lia.
  unfold command. rewrite send_command_last by assumption. cbv zeta.
  cbn [delivered]. rewrite (classify_abort g o st pkt H0 H1 H2 Hst), Hgo.
  reflexivity.
Qed.

(** C5, as the specification states it, fails: with a UART payload of 20
    bytes and 12 bytes asked for, [send_bluetooth_command] raises nothing
    and returns the 5 bytes there are from position 15 on. *)
Lemma short_payload_is_truncated_silently :
  ∃ payload w',
    send_uart_command 1 UART_COMMAND_SEND_BT_CMD
      (0x01 :: neutral_rumble ++ 0x02 :: []) short_reply = (Ret payload, w')
    ∧ length payload = 20%nat
    ∧ send_bluetooth_command 1 0x01 0x02 [] 12 short_reply
      = (Ret [1; 2; 3; 4; 5], w').
Proof.
  eexists _, _.
  split; [vm_compute; reflexivity|]. split; reflexivity.
Qed.

(** C5, amended: [send_bluetooth_command] returns the bytes at positions
    [15, 15 + response_length) of the payload [send_uart_command] gave when
    the payload has that many bytes; when it is shorter no error is raised
    and the bytes from position 15 to its end are returned. *)
Theorem bluetooth_response_slice (command subcommand : Z) (argument : list Z)
    (response_length fuel : nat) (w w' : world) (payload : list Z) :
  0 ≤ command < 256 →
  0 ≤ subcommand < 256 →
  send_uart_command fuel UART_COMMAND_SEND_BT_CMD
    (command :: neutral_rumble ++ subcommand :: argument) w = (Ret payload, w') →
  let response := take response_length (drop 15 payload) in
  send_bluetooth_command fuel command subcommand argument response_length w
    = (Ret response, w')
  ∧ ((15 + response_length ≤ length payload)%nat →
       length response = response_length
       ∧ ∀ i, (i < response_length)%nat →
           response !! i = payload !! (15 + i)%nat)
  ∧ ((length payload < 15 + response_length)%nat →
       response = drop 15 payload
       ∧ length response = (length payload - 15)%nat).
Proof.
  intros Hc Hs Hrun response.
  rewrite send_bluetooth_command_run, Hrun by assumption.
  unfold slice. replace (15 + response_length - 15)%nat with response_length by lia.
  split; [reflexivity|]. subst response. split; intros Hlen.
  - split.
    + rewrite length_take, length_drop. lia.
    + intros i Hi. by rewrite lookup_take_lt, lookup_drop.
  - rewrite take_ge by (rewrite length_drop; lia).
    by rewrite length_drop.
Qed.

Lemma bluetooth_response_slice_witness :
  send_bluetooth_command 1 0x01 0x02 [] 12 long_reply
    = (Ret [1; 2; 3; 4; 5; 6; 7; 8; 9; 10; 11; 12],
       World [] [EvWrite ([0x80; 0x92] ++ uart_header 0 11
                            ++ 0x01 :: neutral_rumble ++ [0x02]);
                 EvRead 64 200] []).
Proof.
  refine (proj1 (bluetooth_response_slice 0x01 0x02 [] 12 1 long_reply _
                   (replicate 15 0xbb
                      ++ [1; 2; 3; 4; 5; 6; 7; 8; 9; 10; 11; 12; 13])
                   _ _ _)).
  - lia.
  - lia.
  - reflexivity.
Defined.

(** C6, as the specification states it, fails: the header
    [send_uart_command] builds has six bytes, so the request for command 1
    with the argument [0xaa, 0xbb] is not a 7-byte header followed by the
    argument. *)
Lemma uart_header_is_not_seven_bytes :
  trace (snd (send_uart_command 0 0x01 [0xaa; 0xbb] (World [] [] [])))
    = [EvWrite ([0x80; 0x92] ++ [0x01; 0x02; 0x00; 0; 0; 0] ++ [0xaa; 0xbb])]
  ∧ ¬ ∃ header : list Z,
        length header = 7%nat
        ∧ [0x01; 0x02; 0x00; 0; 0; 0] ++ [0xaa; 0xbb] = header ++ [0xaa; 0xbb].
Proof.
  split; [reflexivity|].
  intros (header & Hlen & Heq). apply (f_equal length) in Heq.
  rewrite !length_app, Hlen in Heq. discriminate.
Qed.

(** C6, amended: for a command byte [c] and an argument of [N] < 65536
    bytes, what [send_uart_command] writes after the relay tag
    [0x80, 0x92] is a six-byte header (the byte [c], then [N] as a
    little-endian 16-bit number, then three zero bytes) followed by the
    argument. *)
Theorem uart_request_layout (c : Z) (argument : list Z) (fuel : nat)
    (w : world) :
  0 ≤ c < 256 →
  Z.of_nat (length argument) < 65536 →
  let N := Z.of_nat (length argument) in
  let header := [c; N mod 256; N / 256; 0; 0; 0] in
  struct_pack_BHBBB c N 0 0 0 w = (Ret header, w)
  ∧ length header = 6%nat
  ∧ 0 ≤ N mod 256 < 256 ∧ 0 ≤ N / 256 < 256
  ∧ N = N mod 256 + 256 * (N / 256)
  ∧ ∃ later,
      trace (snd (send_uart_command fuel c argument w))
        = trace w ++ EvWrite ([0x80; 0x92] ++ header ++ argument) :: later.
Proof.
  intros Hc HN N header.
  split; [exact (struct_pack_uart_header c (length argument) w Hc HN)|].
  split; [reflexivity|].
  split; [apply Z.mod_pos_bound; lia|].
  split; [subst N; split; [apply Z.div_pos; lia | apply Z.div_lt_upper_bound; lia]|].
  split; [rewrite Z.add_comm; apply Z.div_mod; lia|].
  rewrite send_uart_command_run by assumption.
  destruct (send_command_trace 0x80 0x92
              (uart_header c (length argument) ++ argument) USB_BUF_LEN fuel w)
    as (new & Ht & _).
  exists new.
  destruct (send_command _ _ _ _) as [[[raw|]| |] w1]; exact Ht.
Qed.

Lemma uart_request_layout_witness :
  struct_pack_BHBBB 0x01 (Z.of_nat (length [0xaa; 0xbb])) 0 0 0 (World [] [] [])
    = (Ret [0x01; 2 mod 256; 2 / 256; 0; 0; 0], World [] [] [])
  ∧ ∃ later,
      trace (snd (send_uart_command 2 0x01 [0xaa; 0xbb] (World [] [] [])))
        = [] ++ EvWrite ([0x80; 0x92] ++ [0x01; 2 mod 256; 2 / 256; 0; 0; 0]
                           ++ [0xaa; 0xbb]) :: later.
Proof.
  destruct (uart_request_layout 0x01 [0xaa; 0xbb] 2 (World [] [] []))
    as (Hpack & _ & _ & _ & _ & Htrace).
  - lia.
  - cbn. lia.
  - split; [exact Hpack | exact Htrace].
Defined.

(** ** Device info *)

Lemma py_bytes_ok (l : list Z) (w : world) :
  Forall (λ b, 0 ≤ b < 256) l → py_bytes l w = (Ret l, w).
Proof.
  intros Hl. unfold py_bytes.
  assert (forallb is_byte l = true) as ->; [|reflexivity].
  induction Hl as [|b l Hb _ IH]; [reflexivity|].
  cbn. by rewrite (is_byte_true _ Hb), IH.
Qed.

(** C8: decoding eight bytes always succeeds, leaves the world alone and
    depends on the bytes only: byte 0 is the type, bytes 1 to 6 are the mac,
    least significant byte first (byte 7 is not looked at); this is what
    [read_device_info] returns for a response that carries the eight bytes;
    [0x01] followed by the little-endian bytes of [0x112233445566] decodes
    to type 1 and mac [0x112233445566]. *)
Theorem device_info_decode (b0 b1 b2 b3 b4 b5 b6 b7 : Z) (w : world) :
  Forall (λ b, 0 ≤ b < 256) [b0; b1; b2; b3; b4; b5; b6; b7] →
  let info := [b0; b1; b2; b3; b4; b5; b6; b7] in
  let result :=
    mkDeviceInfo b0 (b1 + b2 * 2^8 + b3 * 2^16 + b4 * 2^24 + b5 * 2^32
                     + b6 * 2^40) in
  decode_device_info (Some info) w = (Ret result, w)
  ∧ (∀ w2, fst (decode_device_info (Some info) w2)
           = fst (decode_device_info (Some info) w))
  ∧ 0 ≤ mac result < 2^48
  ∧ (∀ st rest tr out fuel,
       fst (read_device_info (S fuel) false
              (World (Packet (0x81 :: 0x01 :: st :: info) :: rest) tr out))
       = Ret (Parsed result))
  ∧ decode_device_info (Some [0x01; 0x66; 0x55; 0x44; 0x33; 0x22; 0x11; b7]) w
    = (Ret (mkDeviceInfo 1 0x112233445566), w).
Proof.
  intros Hb info result.
  assert (∀ c0 c1 c2 c3 c4 c5 c6 c7 w1,
            Forall (λ b, 0 ≤ b < 256) [c0; c1; c2; c3; c4; c5; c6; c7] →
            decode_device_info (Some [c0; c1; c2; c3; c4; c5; c6; c7]) w1
            = (Ret (mkDeviceInfo c0 (c1 + c2 * 2^8 + c3 * 2^16 + c4 * 2^24
                                     + c5 * 2^32 + c6 * 2^40)), w1)) as Hdec.
  { intros c0 c1 c2 c3 c4 c5 c6 c7 w1 Hc.
    unfold decode_device_info, subscript_slice, slice, mbind, M_bind.
    cbn [take drop Nat.sub mret M_ret].
    rewrite !Forall_cons in Hc.
    destruct Hc as (Hc0 & Hc1 & Hc2 & Hc3 & Hc4 & Hc5 & Hc6 & _).
    rewrite (py_bytes_ok [c0])
      by (repeat (constructor; [assumption|]); constructor).
    rewrite (py_bytes_ok [c1; c2; c3; c4; c5; c6])
      by (repeat (constructor; [assumption|]); constructor).
    cbn [int_from_bytes_little]. eval_powers_of_2. unfold mret, M_ret.
    do 2 f_equal. f_equal; lia. }
  subst info.
  split; [by apply Hdec|].
  split; [intros w2; by rewrite !Hdec|].
  split.
  { rewrite !Forall_cons in Hb. cbn [mac result]. eval_powers_of_2. lia. }
  split.
  - intros st rest tr out fuel. unfold read_device_info, mbind, M_bind.
    pose proof (send_command_accepts 0x80 0x01 [] 8 [] rest
                  [0x81; 0x01; st; b0; b1; b2; b3; b4; b5; b6; b7] st
                  (S fuel) tr out) as Hrun.
    cbv zeta in Hrun. cbn [app length] in Hrun. unfold COMMAND_DEVICE_INFO.
    rewrite Hrun;
      [|done|constructor|reflexivity|reflexivity|reflexivity|lia].
    change (slice 3 (3 + 8)
              (take USB_BUF_LEN [129; 1; st; b0; b1; b2; b3; b4; b5; b6; b7]))
      with [b0; b1; b2; b3; b4; b5; b6; b7].
    cbv zeta. by rewrite Hdec.
  - rewrite Hdec; [reflexivity|].
    rewrite !Forall_cons in Hb |- *. repeat split; try lia. constructor.
Qed.

Lemma device_info_decode_witness :
  decode_device_info (Some [0x01; 0x66; 0x55; 0x44; 0x33; 0x22; 0x11; 0x00])
      (World [] [] [])
    = (Ret (mkDeviceInfo 1 0x112233445566), World [] [] []).
Proof.
  refine (proj1 (device_info_decode 0x01 0x66 0x55 0x44 0x33 0x22 0x11 0x00
                   (World [] [] []) _)).
  repeat (constructor; [lia|]). constructor.
Defined.

(** C10: when the device-error packet ends a UART exchange, [send_command]
    returns [None], [send_uart_command] raises [TypeError] on subscripting
    it, and so does [send_bluetooth_command], which calls it: neither
    returns a value. *)
Theorem abort_is_a_TypeError_in_uart_layers (c : Z) (argument : list Z)
    (bc sc : Z) (bt_argument : list Z) (response_length : nat)
    (pre rest : list read_result) (pkt : list Z) (st : Z) (fuel : nat)
    (tr : list event) (out : list string) :
  0 ≤ c < 256 →
  Z.of_nat (length argument) < 65536 →
  0 ≤ bc < 256 →
  0 ≤ sc < 256 →
  Z.of_nat (length bt_argument) + 11 < 65536 →
  Forall (discarded 0x80 0x92) pre →
  pkt !! 0%nat = Some 0x81 →
  pkt !! 1%nat = Some 0x01 →
  pkt !! 2%nat = Some st →
  st ≠ 0 →
  (length pre < fuel)%nat →
  let w := World (pre ++ Packet pkt :: rest) tr out in
  fst (send_command fuel
         (COMMAND_SEND_UART_COMMAND ++ uart_header c (length argument)
            ++ argument) USB_BUF_LEN w) = Ret None
  ∧ fst (send_uart_command fuel c argument w) = Raise TypeError
  ∧ fst (send_bluetooth_command fuel bc sc bt_argument response_length w)
    = Raise TypeError.
Proof.
  intros Hc Hlen Hbc Hsc Hbt Hpre H0 H1 H2 Hst Hfuel w.
  assert (∀ payload,
            send_command fuel (0x80 :: 0x92 :: payload) USB_BUF_LEN w
            = (Ret None,
               World rest
                 (tr ++ EvWrite (0x80 :: 0x92 :: payload)
                     :: resend_rounds (0x80 :: 0x92 :: payload) (length pre)
                     ++ [EvRead USB_BUF_LEN 200]) out)) as Habort.
  { intros payload. by apply (send_command_aborts 0x80 0x92 payload) with st. }
  split; [|split].
  - cbn [COMMAND_SEND_UART_COMMAND app]. by rewrite Habort.
  - rewrite send_uart_command_run by assumption. by rewrite Habort.
  - rewrite send_bluetooth_command_run by assumption.
    rewrite send_uart_command_run.
    + by rewrite Habort.
    + unfold UART_COMMAND_SEND_BT_CMD. lia.
    + cbn [length neutral_rumble app]. lia.
Qed.

Lemma abort_is_a_TypeError_in_uart_layers_witness :
  fst (send_command 2
         (COMMAND_SEND_UART_COMMAND ++ uart_header 0x00 (length [0x05])
            ++ [0x05]) USB_BUF_LEN failing_device) = Ret None
  ∧ fst (send_uart_command 2 0x00 [0x05] failing_device) = Raise TypeError
  ∧ fst (send_bluetooth_command 2 0x01 0x02 [] 12 failing_device)
    = Raise TypeError.
Proof.
  apply (abort_is_a_TypeError_in_uart_layers 0x00 [0x05] 0x01 0x02 [] 12
           [ReadFails] [] [0x81; 0x01; 0x07] 0x07 2 [] []).
  - lia.
  - cbn. lia.
  - lia.
  - lia.
  - cbn. lia.
  - repeat constructor.
  - reflexivity.
  - reflexivity.
  - reflexivity.
  - lia.
  - cbn. lia.
Defined.

(** ** The command channel on an arbitrary device *)

Lemma delivered_length (r : option read_result) :
  (length (delivered r) ≤ USB_BUF_LEN)%nat.
Proof.
  destruct r as [[p|]|]; cbn [delivered].
  - rewrite length_take. lia.
  - by rewrite length_replicate.
  - by rewrite length_replicate.
Qed.

Lemma drop_1_tail {A} (l : list A) : drop 1 l = tail l.
Proof. by destruct l. Qed.

(** The loop is decided by the first buffer it does not discard: it is
    the buffer number [k], after [k] resends, unless the fuel ends first. *)
Lemma send_command_loop_spec (g o : Z) (payload : list Z) (n fuel : nat)
    (w : world) :
  ∃ k,
    (k ≤ fuel)%nat
    ∧ (∀ i, (i < k)%nat → classify g o (delivered (script w !! i)) = Resend)
    ∧ ((k = fuel
        ∧ send_command_loop fuel (g :: o :: payload) n w
          = (OutOfFuel,
             World (drop k (script w))
               (trace w ++ resend_rounds (g :: o :: payload) k) (stdout w)))
       ∨ ((k < fuel)%nat
          ∧ classify g o (delivered (script w !! k)) ≠ Resend
          ∧ send_command_loop fuel (g :: o :: payload) n w
            = (match classify g o (delivered (script w !! k)) with
               | Accept => Ret (Break (response_of (delivered (script w !! k)) n))
               | Abort => Ret ReturnNone
               | _ => Raise IndexError
               end,
               World (drop (S k) (script w))
                 (trace w ++ resend_rounds (g :: o :: payload) k
                    ++ [EvRead USB_BUF_LEN 200]) (stdout w)))).
Proof.
  revert w. induction fuel as [|fuel IH]; intros w.
  - exists 0%nat. split; [lia|]. split; [intros i Hi; lia|]. left.
    split; [reflexivity|]. destruct w. cbn. unfold out_of_fuel.
    by rewrite app_nil_r.
  - rewrite send_command_loop_step. cbv zeta. rewrite head_lookup.
    destruct (classify g o (delivered (script w !! 0%nat))) eqn:Hc.
    1,2,4: exists 0%nat; split; [lia|]; split; [intros i Hi; lia|]; right;
      split; [lia|]; rewrite Hc; split; [discriminate|];
      unfold after_read; by rewrite drop_1_tail.
    destruct (IH (log (EvWrite (g :: o :: payload)) (after_read w)))
      as (k & Hk & Hpre & Hrun).
    unfold after_read, log in Hpre, Hrun. cbn [script trace stdout] in Hpre, Hrun.
    assert (∀ i, tail (script w) !! i = script w !! S i) as Htl
      by (intros i; by destruct (script w)).
    assert (∀ i, drop i (tail (script w)) = drop (S i) (script w)) as Hdr
      by (intros i; destruct (script w); [by destruct i | done]).
    assert (∀ tl, ((trace w ++ [EvRead USB_BUF_LEN 200])
                     ++ [EvWrite (g :: o :: payload)])
                    ++ resend_rounds (g :: o :: payload) k ++ tl
                  = trace w ++ resend_rounds (g :: o :: payload) (S k) ++ tl)
      as Htr.
    { intros tl.
      change (resend_rounds (g :: o :: payload) (S k))
        with ([EvRead USB_BUF_LEN 200; EvWrite (g :: o :: payload)]
                ++ resend_rounds (g :: o :: payload) k).
      by rewrite <- !app_assoc. }
    exists (S k). split; [lia|]. split.
    { intros [|i] Hi; [assumption|]. rewrite <- Htl. apply Hpre. lia. }
    rewrite Htl, !Hdr in Hrun. unfold after_read, log. cbn [script trace stdout].
    destruct Hrun as [[-> Hrun]|(Hlt & Hne & Hrun)].
    + left. split; [reflexivity|]. rewrite Hrun. do 2 f_equal.
      specialize (Htr []). by rewrite !app_nil_r in Htr.
    + right. split; [lia|]. split; [assumption|]. rewrite Hrun. do 2 f_equal.
      apply Htr.
Qed.

Lemma send_command_spec (g o : Z) (payload : list Z) (n fuel : nat)
    (w : world) :
  n ≠ 0%nat →
  ∃ k,
    (k ≤ fuel)%nat
    ∧ (∀ i, (i < k)%nat → classify g o (delivered (script w !! i)) = Resend)
    ∧ ((k = fuel
        ∧ send_command fuel (g :: o :: payload) n w
          = (OutOfFuel,
             World (drop k (script w))
               (trace w ++ EvWrite (g :: o :: payload)
                  :: resend_rounds (g :: o :: payload) k) (stdout w)))
       ∨ ((k < fuel)%nat
          ∧ classify g o (delivered (script w !! k)) ≠ Resend
          ∧ send_command fuel (g :: o :: payload) n w
            = (match classify g o (delivered (script w !! k)) with
               | Accept => Ret (Some (slice 3 (3 + n) (delivered (script w !! k))))
               | Abort => Ret None
               | _ => Raise IndexError
               end,
               World (drop (S k) (script w))
                 (trace w ++ EvWrite (g :: o :: payload)
                    :: resend_rounds (g :: o :: payload) k
                    ++ [EvRead USB_BUF_LEN 200])
                 (stdout w
                    ++ match classify g o (delivered (script w !! k)) with
                       | Accept =>
                           if delivered (script w !! k) !!! 2%nat =? 0 then []
                           else [warning (response_of
                                            (delivered (script w !! k)) n)]
                       | _ => []
                       end)))).
Proof.
  intros Hn. rewrite send_command_run by assumption.
  destruct (send_command_loop_spec g o payload n fuel
              (log (EvWrite (g :: o :: payload)) w)) as (k & Hk & Hpre & Hrun).
  unfold log in Hpre, Hrun. cbn [script trace stdout] in Hpre, Hrun.
  exists k. split; [assumption|]. split; [assumption|].
  unfold log. destruct Hrun as [[-> Hrun]|(Hlt & Hne & Hrun)]; rewrite Hrun.
  - left. split; [reflexivity|]. by rewrite <- app_assoc.
  - right. split; [assumption|]. split; [assumption|].
    destruct (classify g o (delivered (script w !! k)));
      cbn [script trace stdout response_of data status];
      rewrite <- ?app_assoc, ?app_nil_r; reflexivity.
Qed.


(** X1: [send_command] returns [None] in two cases only: no response was
    asked for (response length 0), or the first read that was not
    discarded delivered the device-info error packet. *)
Theorem send_command_returns_None_iff (g o : Z) (payload : list Z)
    (n fuel : nat) (w : world) :
  fst (send_command fuel (g :: o :: payload) n w) = Ret None
  ↔ n = 0%nat
    ∨ ∃ k, (k < fuel)%nat
           ∧ (∀ i, (i < k)%nat →
                   classify g o (delivered (script w !! i)) = Resend)
           ∧ classify g o (delivered (script w !! k)) = Abort.
Proof.
  destruct (Nat.eq_dec n 0%nat) as [->|Hn]; [split; [by left | reflexivity]|].
  destruct (send_command_spec g o payload n fuel w Hn)
    as (k & Hk & Hpre & [[-> Hrun]|(Hlt & Hne & Hrun)]); rewrite Hrun;
    cbn [fst]; split.
  - discriminate.
  - intros [?|(k' & Hk' & _ & Hab)]; [contradiction|].
    rewrite (Hpre k' Hk') in Hab. discriminate.
  - destruct (classify g o (delivered (script w !! k))) eqn:Hc;
      try discriminate.
    intros _. right. exists k. by repeat split.
  - intros [?|(k' & Hk' & Hpre' & Hab)]; [contradiction|].
    assert (k' = k) as ->.
    { destruct (Nat.lt_trichotomy k' k) as [Hlt'|[?|Hgt]]; [|assumption|].
      - rewrite (Hpre k' Hlt') in Hab. discriminate.
      - destruct Hne. by apply Hpre'. }
    by rewrite Hab.
Qed.

(** X2: [usb_read] never raises: it returns a buffer of at most the
    requested length (64 when none is given), uses up one answer of the
    device and issues one read with the timeout given (200 by default);
    when the read fails the buffer is all zeros, of exactly that length. *)
Theorem usb_read_never_raises (len timeout : option nat) (w : world) :
  let size := default USB_BUF_LEN len in
  ∃ buf,
    usb_read len timeout w
      = (Ret buf,
         World (tail (script w))
           (trace w ++ [EvRead size (default 200%nat timeout)]) (stdout w))
    ∧ (length buf ≤ size)%nat
    ∧ ((∀ p, head (script w) ≠ Some (Packet p)) → buf = replicate size 0).
Proof.
  intros size. unfold usb_read, try_except_USBError, dev_read. fold size.
  destruct w as [[|[p|] s] tr out]; cbn [script trace stdout log tail head].
  - eexists. split; [reflexivity|]. by rewrite length_replicate.
  - eexists. split; [reflexivity|]. split; [rewrite length_take; lia|].
    intros Hp. by destruct (Hp p).
  - eexists. split; [reflexivity|]. by rewrite length_replicate.
Qed.

(** X3: whatever the device does and however the call ends, the transport
    sees the command, then [k] rounds of one read and one write of the same
    command, then at most one last read; one answer of the device is used
    up per read, and nothing but the command is ever written. *)
Theorem send_command_traffic (g o : Z) (payload : list Z) (n fuel : nat)
    (w : world) :
  let command := g :: o :: payload in
  let w' := snd (send_command fuel command n w) in
  ∃ k last,
    (k ≤ fuel)%nat
    ∧ (last = [] ∨ last = [EvRead USB_BUF_LEN 200])
    ∧ trace w' = trace w ++ EvWrite command :: resend_rounds command k ++ last
    ∧ script w' = drop (k + length last) (script w)
    ∧ writes_of (EvWrite command :: resend_rounds command k ++ last)
      = replicate (S k) command.
Proof.
  intros command w'.
  assert (∀ k last, last = [] ∨ last = [EvRead USB_BUF_LEN 200] →
            writes_of (EvWrite command :: resend_rounds command k ++ last)
            = replicate (S k) command) as Hw.
  { intros k last Hlast.
    change (command :: writes_of (resend_rounds command k ++ last)
            = command :: replicate k command).
    rewrite writes_of_app, writes_of_resend_rounds.
    destruct Hlast as [-> | ->]; by rewrite app_nil_r. }
  destruct (Nat.eq_dec n 0%nat) as [->|Hn].
  - exists 0%nat, []. split; [lia|]. split; [by left|]. by repeat split.
  - destruct (send_command_spec g o payload n fuel w Hn)
      as (k & Hk & _ & [[-> Hrun]|(Hlt & _ & Hrun)]); subst w';
      unfold command in *;
      rewrite Hrun; cbn [snd script trace].
    + exists fuel, []. split; [lia|]. split; [by left|].
      split; [by rewrite app_nil_r|]. split; [by rewrite Nat.add_0_r|].
      apply Hw. by left.
    + exists k, [EvRead USB_BUF_LEN 200].
      replace (k + length [EvRead USB_BUF_LEN 200])%nat with (S k)
        by (cbn; lia).
      split; [lia|]. split; [by right|]. split; [reflexivity|].
      split; [reflexivity|]. apply Hw. by right.
Qed.

(** X4: [send_command] prints at most one line, and only when it returns
    the data of a response: nothing is printed when it aborts, raises, or
    is still waiting. *)
Theorem send_command_prints_only_with_data (g o : Z) (payload : list Z)
    (n fuel : nat) (w : world) :
  let run := send_command fuel (g :: o :: payload) n w in
  ∃ lines,
    stdout (snd run) = stdout w ++ lines
    ∧ (length lines ≤ 1)%nat
    ∧ (lines ≠ [] → ∃ dat, fst run = Ret (Some dat)).
Proof.
  intros run. subst run.
  assert (∀ out : list string, out = out ++ []) as Hnil
    by (intros out; by rewrite app_nil_r).
  destruct (Nat.eq_dec n 0%nat) as [->|Hn].
  - exists []. split; [apply Hnil|]. split; [cbn; lia|]. by intros [].
  - destruct (send_command_spec g o payload n fuel w Hn)
      as (k & Hk & _ & [[-> Hrun]|(Hlt & _ & Hrun)]); rewrite Hrun;
      cbn [fst snd stdout].
    + exists []. split; [apply Hnil|]. split; [cbn; lia|]. by intros [].
    + eexists. split; [reflexivity|].
      destruct (classify g o _); [destruct (_ =? 0)| | |];
        (split; [cbn; lia|]); intros Hlines; eauto; by destruct Hlines.
Qed.

(** X5: the data [send_command] returns never has more bytes than asked
    for, nor more than the 61 that follow the header in a 64-byte buffer:
    asking for the default 64 gives at most 61. *)
Theorem send_command_data_bound (g o : Z) (payload : list Z) (n fuel : nat)
    (w : world) (dat : list Z) :
  fst (send_command fuel (g :: o :: payload) n w) = Ret (Some dat) →
  (length dat ≤ n)%nat ∧ (length dat ≤ 61)%nat.
Proof.
  destruct (Nat.eq_dec n 0%nat) as [->|Hn]; [discriminate|].
  destruct (send_command_spec g o payload n fuel w Hn)
    as (k & Hk & _ & [[-> Hrun]|(Hlt & _ & Hrun)]); rewrite Hrun;
    cbn [fst]; [discriminate|].
  destruct (classify g o _); try discriminate.
  intros [= <-]. unfold slice. rewrite length_take, length_drop.
  pose proof (delivered_length (script w !! k)) as Hlen.
  unfold USB_BUF_LEN in Hlen. lia.
Qed.

Lemma send_command_data_bound_witness :
  (length [1; 2; 3; 4] ≤ 4)%nat ∧ (length [1; 2; 3; 4] ≤ 61)%nat.
Proof.
  apply (send_command_data_bound 0x80 0x02 [] 4 3
           (World [ReadFails; Packet [0x81; 0x02; 0x0c; 1; 2; 3; 4; 5; 6]] [] [])
           [1; 2; 3; 4]).
  reflexivity.
Defined.



Lemma classify_device_info_never_aborts (g o : Z) (pkt : list Z) :
  Z.lor g 1 = 0x81 → o = 0x01 → classify g o pkt ≠ Abort.
Proof.
  intros Hg ->. destruct pkt as [|a [|b [|c tl]]]; try discriminate.
  unfold classify. rewrite Hg.
  destruct ((a =? 129) && (b =? 1)); [discriminate|].
  cbn. discriminate.
Qed.

(** X7: for the device-info command [send_command] never aborts, so
    [read_device_info] never sees [None]: in raw mode it never returns
    [None], and otherwise it never fails with the [TypeError] of slicing
    [None]. *)
Theorem read_device_info_never_sees_None (fuel : nat) (raw : bool)
    (w : world) :
  fst (send_command fuel COMMAND_DEVICE_INFO 8 w) ≠ Ret None
  ∧ fst (read_device_info fuel raw w) ≠ Ret (RawInfo None)
  ∧ fst (read_device_info fuel raw w) ≠ Raise TypeError.
Proof.
  unfold read_device_info, mbind, M_bind, COMMAND_DEVICE_INFO.
  destruct (send_command_spec 0x80 0x01 [] 8 fuel w)
    as (k & Hk & _ & [[-> Hrun]|(Hlt & Hne & Hrun)]); [lia| |];
    rewrite Hrun; cbn [fst]; [by repeat split|].
  pose proof (classify_device_info_never_aborts 0x80 0x01
                (delivered (script w !! k)) eq_refl eq_refl) as Hab.
  destruct (classify 128 1 (delivered (script w !! k)));
    try contradiction; [|by repeat split..].
  split; [discriminate|].
  destruct raw; [by split|].
  unfold decode_device_info, subscript_slice, py_bytes, mbind, M_bind,
    mret, M_ret, raise.
  repeat destruct (forallb is_byte _); by split.
Qed.

(** X8: [pair_via_uart] answers [True] as soon as a packet [0x81, 0x02]
    arrives, whatever its status byte, and [False] when the device-info
    error packet arrives instead. *)
Theorem pair_via_uart_result (pre rest : list read_result) (pkt : list Z)
    (b st : Z) (fuel : nat) (tr : list event) (out : list string) :
  Forall (discarded 0x80 0x02) pre →
  pkt !! 0%nat = Some 0x81 →
  pkt !! 1%nat = Some b →
  pkt !! 2%nat = Some st →
  (length pre < fuel)%nat →
  let w := World (pre ++ Packet pkt :: rest) tr out in
  (b = 0x02 → fst (pair_via_uart fuel w) = Ret true)
  ∧ (b = 0x01 → st ≠ 0 → fst (pair_via_uart fuel w) = Ret false).
Proof.
  intros Hpre H0 H1 H2 Hfuel w. unfold pair_via_uart, mbind, M_bind.
  split.
  - intros ->. subst w. unfold COMMAND_UART_PAIR.
    by rewrite (send_command_accepts 0x80 0x02 [] USB_BUF_LEN pre rest pkt st).
  - intros -> Hst. subst w. unfold COMMAND_UART_PAIR.
    by rewrite (send_command_aborts 0x80 0x02 [] USB_BUF_LEN pre rest pkt st).
Qed.

Lemma pair_via_uart_result_witness :
  (0x02 = 0x02 →
   fst (pair_via_uart 3
          (World ([ReadFails] ++ Packet [0x81; 0x02; 0x0c] :: []) [] []))
   = Ret true)
  ∧ (0x02 = 0x01 → 0x0c ≠ 0 →
     fst (pair_via_uart 3
            (World ([ReadFails] ++ Packet [0x81; 0x02; 0x0c] :: []) [] []))
     = Ret false).
Proof.
  apply (pair_via_uart_result [ReadFails] [] [0x81; 0x02; 0x0c] 0x02 0x0c 3
           [] []).
  - repeat constructor.
  - reflexivity.
  - reflexivity.
  - reflexivity.
  - cbn. lia.
Defined.

(** ** The encapsulations on an arbitrary device *)

Lemma is_byte_false (x : Z) : ¬ 0 ≤ x < 256 → is_byte x = false.
Proof. unfold is_byte. intros H. apply andb_false_iff. lia. Qed.

Lemma send_uart_command_rejects (fuel : nat) (command : Z)
    (argument : list Z) (w : world) :
  ¬ 0 ≤ command < 256 ∨ 65536 ≤ Z.of_nat (length argument) →
  send_uart_command fuel command argument w = (Raise StructError, w).
Proof.
  intros Hbad. unfold send_uart_command, mbind, M_bind, struct_pack_BHBBB.
  assert (is_byte command
          && ((0 <=? Z.of_nat (length argument))
              && (Z.of_nat (length argument) <? 65536)) = false) as ->;
    [|reflexivity].
  destruct Hbad as [Hc|Hl].
  - by rewrite (is_byte_false _ Hc).
  - apply andb_false_iff. right. apply andb_false_iff. lia.
Qed.

(** X9: [send_uart_command] raises [struct.error] when the command is not
    a byte or the argument has 65536 bytes or more, and
    [send_bluetooth_command] raises [OverflowError] when the command or
    the subcommand is not a byte and [struct.error] when the argument has
    65525 bytes or more; in all these cases nothing was written or read. *)
Theorem malformed_requests_never_reach_the_device (fuel : nat)
    (command subcommand : Z) (argument : list Z) (response_length : nat)
    (w : world) :
  (¬ 0 ≤ command < 256 ∨ 65536 ≤ Z.of_nat (length argument) →
   send_uart_command fuel command argument w = (Raise StructError, w))
  ∧ (¬ 0 ≤ command < 256 ∨ ¬ 0 ≤ subcommand < 256 →
     send_bluetooth_command fuel command subcommand argument response_length w
     = (Raise OverflowError, w))
  ∧ (0 ≤ command < 256 → 0 ≤ subcommand < 256 →
     65536 ≤ Z.of_nat (length argument) + 11 →
     send_bluetooth_command fuel command subcommand argument response_length w
     = (Raise StructError, w)).
Proof.
  split; [apply send_uart_command_rejects|]. split.
  - intros Hbad. unfold send_bluetooth_command, to_bytes_1, mbind, M_bind.
    destruct (decide (0 ≤ command < 256)) as [Hc|Hc].
    + destruct Hbad as [?|Hs]; [contradiction|].
      by rewrite (is_byte_true _ Hc), (is_byte_false _ Hs).
    + by rewrite (is_byte_false _ Hc).
  - intros Hc Hs Hlen. rewrite send_bluetooth_command_run by assumption.
    rewrite send_uart_command_rejects; [reflexivity|].
    right. cbn [length neutral_rumble app]. lia.
Qed.

Lemma malformed_requests_never_reach_the_device_witness :
  send_uart_command 3 0x100 [1; 2] (World [ReadFails] [] [])
    = (Raise StructError, World [ReadFails] [] [])
  ∧ send_bluetooth_command 3 0x01 (-1) [] 35 (World [ReadFails] [] [])
    = (Raise OverflowError, World [ReadFails] [] []).
Proof.
  destruct (malformed_requests_never_reach_the_device 3 0x100 0 [1; 2] 35
              (World [ReadFails] [] [])) as (Huart & _ & _).
  destruct (malformed_requests_never_reach_the_device 3 0x01 (-1) [] 35
              (World [ReadFails] [] [])) as (_ & Hbt & _).
  split.
  - apply Huart. left. lia.
  - apply Hbt. right. lia.
Defined.

(** X10: the packet [send_bluetooth_command] puts on the transport is the
    relay tag [0x80, 0x92], the UART command 0, the length 11 + [N] of what
    follows the header as a little-endian 16-bit number, three zeros, the
    command, the nine rumble bytes, the subcommand and the [N] argument
    bytes; it is the first thing written. *)
Theorem bluetooth_request_layout (fuel : nat) (command subcommand : Z)
    (argument : list Z) (response_length : nat) (w : world) :
  0 ≤ command < 256 →
  0 ≤ subcommand < 256 →
  Z.of_nat (length argument) + 11 < 65536 →
  let L := Z.of_nat (length argument) + 11 in
  ∃ later,
    trace (snd (send_bluetooth_command fuel command subcommand argument
                  response_length w))
    = trace w
      ++ EvWrite ([0x80; 0x92; 0x00; L mod 256; L / 256; 0; 0; 0; command;
                   0x00; 0x00; 0x01; 0x40; 0x40; 0x00; 0x01; 0x40; 0x40;
                   subcommand] ++ argument)
      :: later.
Proof.
  intros Hc Hs Hlen L.
  rewrite send_bluetooth_command_run by assumption.
  rewrite send_uart_command_run;
    [|unfold UART_COMMAND_SEND_BT_CMD; lia|cbn [length neutral_rumble app]; lia].
  destruct (send_command_trace 0x80 0x92
              (uart_header UART_COMMAND_SEND_BT_CMD
                 (length (command :: neutral_rumble ++ subcommand :: argument))
               ++ command :: neutral_rumble ++ subcommand :: argument)
              USB_BUF_LEN fuel w) as (new & Ht & _).
  exists new.
  assert (Z.of_nat (length (command :: neutral_rumble ++ subcommand :: argument))
          = L) as HL by (cbn [length neutral_rumble app]; lia).
  unfold uart_header in Ht |- *. rewrite HL in Ht |- *.
  destruct (send_command _ _ _ _) as [[[raw|]| |] w1]; exact Ht.
Qed.

Lemma bluetooth_request_layout_witness :
  ∃ later,
    trace (snd (send_bluetooth_command 1 0x01 0x02 [0x07] 12 long_reply))
    = [] ++ EvWrite ([0x80; 0x92; 0x00; (Z.of_nat 1 + 11) mod 256;
                      (Z.of_nat 1 + 11) / 256; 0; 0; 0; 0x01;
                      0x00; 0x00; 0x01; 0x40; 0x40; 0x00; 0x01; 0x40; 0x40;
                      0x02] ++ [0x07])
      :: later.
Proof.
  apply (bluetooth_request_layout 1 0x01 0x02 [0x07] 12 long_reply).
  - lia.
  - lia.
  - cbn. lia.
Defined.

Lemma send_uart_command_payload_bound (fuel : nat) (command : Z)
    (argument : list Z) (w : world) (payload : list Z) :
  fst (send_uart_command fuel command argument w) = Ret payload →
  (length payload ≤ 54)%nat.
Proof.
  destruct (decide (0 ≤ command < 256 ∧ Z.of_nat (length argument) < 65536))
    as [[Hc Hl]|Hbad].
  - rewrite send_uart_command_run by assumption.
    destruct (send_command_spec 0x80 0x92
                (uart_header command (length argument) ++ argument)
                USB_BUF_LEN fuel w)
      as (k & _ & _ & [[-> Hrun]|(_ & _ & Hrun)]); [done| |];
      rewrite Hrun; cbn [fst]; [discriminate|].
    destruct (classify 128 146 _); try discriminate.
    intros [= <-]. unfold slice. rewrite length_drop, length_take, length_drop.
    pose proof (delivered_length (script w !! k)) as Hlen.
    unfold USB_BUF_LEN in *. lia.
  - rewrite send_uart_command_rejects; [discriminate|].
    destruct (decide (0 ≤ command < 256)); [right; lia | by left].
Qed.

(** X11: [send_uart_command] never returns more than 54 bytes (64 read,
    3 + 7 stripped), and [send_bluetooth_command] never more than the
    response length asked for nor more than 39: a response length above 39
    cannot be served. *)
Theorem encapsulated_payload_bounds (fuel : nat) (command subcommand : Z)
    (argument : list Z) (response_length : nat) (w : world)
    (payload response : list Z) :
  (fst (send_uart_command fuel command argument w) = Ret payload →
   (length payload ≤ 54)%nat)
  ∧ (fst (send_bluetooth_command fuel command subcommand argument
            response_length w) = Ret response →
     (length response ≤ response_length)%nat ∧ (length response ≤ 39)%nat).
Proof.
  split; [apply send_uart_command_payload_bound|].
  destruct (decide (0 ≤ command < 256 ∧ 0 ≤ subcommand < 256))
    as [[Hc Hs]|Hbad].
  - rewrite send_bluetooth_command_run by assumption.
    pose proof (send_uart_command_payload_bound fuel UART_COMMAND_SEND_BT_CMD
                  (command :: neutral_rumble ++ subcommand :: argument) w)
      as Hb.
    destruct (send_uart_command _ _ _ _) as [[raw| |] w']; try discriminate.
    cbn [fst] in *. intros [= <-]. specialize (Hb raw eq_refl).
    unfold slice. rewrite length_take, length_drop. lia.
  - unfold send_bluetooth_command, to_bytes_1, mbind, M_bind.
    destruct (decide (0 ≤ command < 256)) as [Hc|Hc].
    + rewrite (is_byte_true _ Hc), (is_byte_false subcommand) by tauto.
      discriminate.
    + rewrite (is_byte_false _ Hc). discriminate.
Qed.

Lemma encapsulated_payload_bounds_witness :
  (length (replicate 15 0xbb ++ [1; 2; 3; 4; 5]) ≤ 54)%nat
  ∧ (length [1; 2; 3; 4; 5] ≤ 12)%nat ∧ (length [1; 2; 3; 4; 5] ≤ 39)%nat.
Proof.
  destruct (encapsulated_payload_bounds 1 UART_COMMAND_SEND_BT_CMD 0
              (0x01 :: neutral_rumble ++ 0x02 :: []) 12 short_reply
              (replicate 15 0xbb ++ [1; 2; 3; 4; 5]) []) as [Huart _].
  destruct (encapsulated_payload_bounds 1 0x01 0x02 [] 12 short_reply
              [] [1; 2; 3; 4; 5]) as [_ Hbt].
  split; [apply Huart; reflexivity | apply Hbt; reflexivity].
Defined.

(** X12: when the relay response [0x81, 0x92] arrives, whatever its
    status, [send_uart_command] returns the bytes of the packet from
    position 10 up to 64, and [send_bluetooth_command] the
    [response_length] bytes from position 25 on (as far as the 64 bytes
    go): byte [i] of its result is byte [25 + i] of the packet. *)
Theorem encapsulated_payload_offsets (command subcommand : Z)
    (argument : list Z) (response_length : nat)
    (pre rest : list read_result) (pkt : list Z) (st : Z) (fuel : nat)
    (tr : list event) (out : list string) :
  0 ≤ command < 256 →
  0 ≤ subcommand < 256 →
  Z.of_nat (length argument) + 11 < 65536 →
  Forall (discarded 0x80 0x92) pre →
  pkt !! 0%nat = Some 0x81 →
  pkt !! 1%nat = Some 0x92 →
  pkt !! 2%nat = Some st →
  (length pre < fuel)%nat →
  let w := World (pre ++ Packet pkt :: rest) tr out in
  let response := take response_length (drop 25 (take USB_BUF_LEN pkt)) in
  fst (send_uart_command fuel UART_COMMAND_SEND_BT_CMD
         (command :: neutral_rumble ++ subcommand :: argument) w)
    = Ret (drop 10 (take USB_BUF_LEN pkt))
  ∧ fst (send_bluetooth_command fuel command subcommand argument
           response_length w) = Ret response
  ∧ ∀ i, (i < response_length)%nat → (25 + i < 64)%nat →
         response !! i = pkt !! (25 + i)%nat.
Proof.
  intros Hc Hs Hlen Hpre H0 H1 H2 Hfuel w response.
  assert (fst (send_uart_command fuel UART_COMMAND_SEND_BT_CMD
                 (command :: neutral_rumble ++ subcommand :: argument) w)
          = Ret (drop 10 (take USB_BUF_LEN pkt))) as Huart.
  { rewrite send_uart_command_run;
      [|unfold UART_COMMAND_SEND_BT_CMD; lia
       |cbn [length neutral_rumble app]; lia].
    subst w.
    rewrite (send_command_accepts 0x80 0x92 _ USB_BUF_LEN pre rest pkt st)
      by done.
    cbn [fst]. unfold slice. rewrite (take_ge (drop 3 _)).
    - by rewrite drop_drop.
    - rewrite length_drop, length_take. unfold USB_BUF_LEN. lia. }
  split; [exact Huart|]. split.
  - rewrite send_bluetooth_command_run by assumption.
    destruct (send_uart_command _ _ _ _) as [[raw| |] w']; try discriminate.
    cbn [fst] in *. injection Huart as ->.
    unfold slice. rewrite drop_drop.
    by replace (15 + response_length - 15)%nat with response_length by lia.
  - intros i Hi H64. subst response.
    rewrite lookup_take_lt, lookup_drop by assumption.
    apply lookup_take_lt. unfold USB_BUF_LEN. lia.
Qed.

Lemma encapsulated_payload_offsets_witness :
  fst (send_bluetooth_command 1 0x01 0x02 [] 12 long_reply)
    = Ret (take 12 (drop 25 (take USB_BUF_LEN
             ([0x81; 0x92; 0] ++ replicate 7 0xaa ++ replicate 15 0xbb
                ++ [1; 2; 3; 4; 5; 6; 7; 8; 9; 10; 11; 12; 13])))).
Proof.
  refine (proj1 (proj2 (encapsulated_payload_offsets 0x01 0x02 [] 12 [] []
            ([0x81; 0x92; 0] ++ replicate 7 0xaa ++ replicate 15 0xbb
               ++ [1; 2; 3; 4; 5; 6; 7; 8; 9; 10; 11; 12; 13])
            0 1 [] [] _ _ _ _ _ _ _ _))).
  - lia.
  - lia.
  - cbn. lia.
  - constructor.
  - reflexivity.
  - reflexivity.
  - reflexivity.
  - cbn. lia.
Defined.

(** ** Device info on arbitrary data *)

Lemma int_from_bytes_little_zeros (k : nat) :
  int_from_bytes_little (replicate k 0) = 0.
Proof. induction k as [|k IH]; [reflexivity|]. cbn. rewrite IH. lia. Qed.

Lemma int_from_bytes_little_padded (l : list Z) (k : nat) :
  int_from_bytes_little (l ++ replicate k 0) = int_from_bytes_little l.
Proof.
  induction l as [|x l IH]; cbn.
  - apply int_from_bytes_little_zeros.
  - by rewrite IH.
Qed.

Lemma int_from_bytes_little_inj (l1 l2 : list Z) :
  length l1 = length l2 →
  Forall (λ b, 0 ≤ b < 256) l1 →
  Forall (λ b, 0 ≤ b < 256) l2 →
  int_from_bytes_little l1 = int_from_bytes_little l2 →
  l1 = l2.
Proof.
  revert l2. induction l1 as [|x l1 IH]; intros [|y l2] Hlen H1 H2 Heq;
    try discriminate; [reflexivity|].
  apply Forall_cons in H1 as [Hx H1]. apply Forall_cons in H2 as [Hy H2].
  cbn in Heq. injection Hlen as Hlen.
  assert (x = y) as -> by lia.
  f_equal. apply IH; [assumption..|lia].
Qed.

Lemma decode_device_info_bytes (info : list Z) (w : world) :
  Forall (λ b, 0 ≤ b < 256) info →
  decode_device_info (Some info) w
    = (Ret (mkDeviceInfo (int_from_bytes_little (take 1 info))
                         (int_from_bytes_little (take 6 (drop 1 info)))), w).
Proof.
  intros Hb. unfold decode_device_info, subscript_slice, slice, mbind, M_bind.
  cbn [mret M_ret Nat.sub drop].
  rewrite (py_bytes_ok (take 1 info)) by by apply Forall_take.
  rewrite (py_bytes_ok (take 6 (drop 1 info)))
    by by apply Forall_take, Forall_drop.
  reflexivity.
Qed.

(** X13: device-info data that is cut short decodes without an error, as
    if the missing bytes were zero; in particular a response that has the
    header only (what the device sends after an error) is read as type 0
    and mac 0. *)
Theorem truncated_device_info_reads_as_zero_padded (info : list Z) (k : nat)
    (w : world) (st : Z) (rest : list read_result) (fuel : nat)
    (tr : list event) (out : list string) :
  Forall (λ b, 0 ≤ b < 256) info →
  decode_device_info (Some (info ++ replicate k 0)) w
    = decode_device_info (Some info) w
  ∧ fst (decode_device_info (Some info) w) ≠ Raise IndexError
  ∧ fst (read_device_info (S fuel) false
           (World (Packet [0x81; 0x01; st] :: rest) tr out))
    = Ret (Parsed (mkDeviceInfo 0 0)).
Proof.
  intros Hb.
  assert (Forall (λ b, 0 ≤ b < 256) (info ++ replicate k 0)) as Hpad.
  { apply Forall_app. split; [assumption|].
    apply Forall_replicate. lia. }
  rewrite !decode_device_info_bytes by assumption.
  split; [|split; [discriminate|]].
  - do 3 f_equal.
    + rewrite take_app, take_replicate. apply int_from_bytes_little_padded.
    + rewrite drop_app, drop_replicate, take_app, take_replicate.
      apply int_from_bytes_little_padded.
  - unfold read_device_info, mbind, M_bind.
    pose proof (send_command_accepts 0x80 0x01 [] 8 [] rest
                  [0x81; 0x01; st] st (S fuel) tr out) as Hrun.
    cbv zeta in Hrun. cbn [app length] in Hrun. unfold COMMAND_DEVICE_INFO.
    rewrite Hrun;
      [|done|constructor|reflexivity|reflexivity|reflexivity|lia].
    reflexivity.
Qed.

Lemma truncated_device_info_reads_as_zero_padded_witness :
  decode_device_info (Some ([0x02; 0x66; 0x55] ++ replicate 5 0))
      (World [] [] [])
    = decode_device_info (Some [0x02; 0x66; 0x55]) (World [] [] []).
Proof.
  refine (proj1 (truncated_device_info_reads_as_zero_padded
                   [0x02; 0x66; 0x55] 5 (World [] [] []) 0 [] 0 [] [] _)).
  repeat (constructor; [lia|]). constructor.
Defined.

(** X14: on eight bytes the decoding keeps all of bytes 0 to 6 and
    nothing of byte 7: two responses give the same type and mac exactly
    when they agree on their first seven bytes. *)
Theorem device_info_decode_injective (a b : list Z) (w : world) :
  length a = 8%nat →
  length b = 8%nat →
  Forall (λ x, 0 ≤ x < 256) a →
  Forall (λ x, 0 ≤ x < 256) b →
  fst (decode_device_info (Some a) w) = fst (decode_device_info (Some b) w)
  ↔ take 7 a = take 7 b.
Proof.
  intros Ha Hb Hba Hbb. rewrite !decode_device_info_bytes by assumption.
  cbn [fst]. change (take 7 a) with (take (1 + 6) a).
  change (take 7 b) with (take (1 + 6) b).
  rewrite <- (take_take_drop a 1 6), <- (take_take_drop b 1 6).
  split.
  - intros [= H1 H2].
    apply int_from_bytes_little_inj in H1;
      [|rewrite !length_take; lia|by apply Forall_take..].
    apply int_from_bytes_little_inj in H2;
      [|rewrite !length_take, !length_drop; lia
       |by apply Forall_take, Forall_drop..].
    by rewrite H1, H2.
  - intros Heq. apply app_inj_1 in Heq as [-> ->]; [reflexivity|].
    rewrite !length_take. lia.
Qed.

Lemma device_info_decode_injective_witness :
  fst (decode_device_info (Some [1; 2; 3; 4; 5; 6; 7; 8]) (World [] [] []))
  = fst (decode_device_info (Some [1; 2; 3; 4; 5; 6; 7; 9]) (World [] [] []))
  ↔ take 7 [1; 2; 3; 4; 5; 6; 7; 8] = take 7 [1; 2; 3; 4; 5; 6; 7; 9].
Proof.
  apply (device_info_decode_injective [1; 2; 3; 4; 5; 6; 7; 8]
           [1; 2; 3; 4; 5; 6; 7; 9] (World [] [] [])).
  - reflexivity.
  - reflexivity.
  - repeat (constructor; [lia|]). constructor.
  - repeat (constructor; [lia|]). constructor.
Defined.

(** ** Discovery and setup: the endpoints *)

Lemma last_cons_union {A} (x : A) (l : list A) (old : option A) :
  last l ∪ Some x = last (x :: l) ∪ old.
Proof. rewrite last_cons. by destruct (last l), old. Qed.

Lemma last_app_union {A} (l1 l2 : list A) (old : option A) :
  last l2 ∪ (last l1 ∪ old) = last (l1 ++ l2) ∪ old.
Proof. rewrite last_app. by destruct (last l2), (last l1), old. Qed.

Lemma note_endpoints_spec (addresses : list Z) (e : option Z * option Z) :
  fold_left note_endpoint addresses e
    = (last_in addresses ∪ fst e, last_out addresses ∪ snd e).
Proof.
  revert e. induction addresses as [|a l IH]; intros [i o].
  - by destruct i, o.
  - cbn [fold_left]. rewrite IH. unfold note_endpoint, last_in, last_out.
    rewrite !filter_cons.
    destruct (Z.eqb_spec (Z.land a ENDPOINT_IN) 0) as [Ha|Ha];
      cbn [negb fst snd]; repeat case_decide; try contradiction;
      f_equal; apply last_cons_union.
Qed.

Lemma note_interfaces_spec (n : Z) (ifs : list usb_interface)
    (e : option Z * option Z) :
  let addresses :=
    flat_map endpoints (filter (λ i, bInterfaceNumber i = n) ifs) in
  fold_left (note_interface n) ifs e
    = (last_in addresses ∪ fst e, last_out addresses ∪ snd e).
Proof.
  revert e. induction ifs as [|i ifs IH]; intros e.
  - by destruct e as [[] []].
  - cbn [fold_left]. cbv zeta in IH |- *. rewrite IH. unfold note_interface.
    rewrite filter_cons.
    destruct (Z.eqb_spec (bInterfaceNumber i) n) as [Hi|Hi]; cbn [negb];
      case_decide; try contradiction; [|reflexivity].
    cbn [flat_map]. rewrite note_endpoints_spec. cbn [fst snd].
    unfold last_in, last_out. rewrite !filter_app.
    f_equal; apply last_app_union.
Qed.

Lemma determine_endpoints_run (s : controller) (d : usb_device) (n : Z) :
  dev s = Some d →
  _determine_endpoints s n
    = (Returns (),
       mkController (lock_dfu_command s) (device_id s) (Some d)
         (last_in (candidate_endpoints d n))
         (last_out (candidate_endpoints d n))).
Proof.
  intros Hd. unfold _determine_endpoints, set_endpoints.
  cbn [dev endpoint_in endpoint_out lock_dfu_command device_id fst snd].
  rewrite Hd, note_interfaces_spec. cbn [fst snd].
  unfold candidate_endpoints.
  by destruct (last_in _), (last_out _).
Qed.

(** X15: [_determine_endpoints] forgets the endpoints the object had and
    keeps, among the endpoints of the interfaces that carry the number
    asked for, the last one with the IN bit as [endpoint_in] and the last
    one without it as [endpoint_out]; an object without a device gets
    [AttributeError]. *)
Theorem determine_endpoints_keeps_the_last (s : controller) (n : Z) :
  match dev s with
  | Some d =>
      _determine_endpoints s n
        = (Returns (),
           mkController (lock_dfu_command s) (device_id s) (Some d)
             (last_in (candidate_endpoints d n))
             (last_out (candidate_endpoints d n)))
  | None =>
      _determine_endpoints s n
        = (Throws AttributeError,
           mkController (lock_dfu_command s) (device_id s) None None None)
  end.
Proof.
  destruct (dev s) as [d|] eqn:Hd.
  - by apply determine_endpoints_run.
  - unfold _determine_endpoints, set_endpoints. cbn. by rewrite Hd.
Qed.

(** X16: the endpoint [_determine_endpoints] stores as [endpoint_in] is an
    endpoint of an interface with the number asked for, has the IN bit
    (0x80) set, and no endpoint after it has; the one stored as
    [endpoint_out] has the bit clear; [endpoint_in] is [None] exactly when
    no such endpoint has the bit, [endpoint_out] exactly when all have. *)
Theorem determined_endpoints_have_their_direction (s s' : controller)
    (d : usb_device) (n : Z) :
  dev s = Some d →
  _determine_endpoints s n = (Returns (), s') →
  let candidates := candidate_endpoints d n in
  (∀ a, endpoint_in s' = Some a →
        Z.land a 0x80 ≠ 0
        ∧ ∃ l1 l2, candidates = l1 ++ a :: l2
                   ∧ Forall (λ z, Z.land z 0x80 = 0) l2)
  ∧ (∀ a, endpoint_out s' = Some a →
          Z.land a 0x80 = 0
          ∧ ∃ l1 l2, candidates = l1 ++ a :: l2
                     ∧ Forall (λ z, Z.land z 0x80 ≠ 0) l2)
  ∧ (endpoint_in s' = None ↔ Forall (λ z, Z.land z 0x80 = 0) candidates)
  ∧ (endpoint_out s' = None ↔ Forall (λ z, Z.land z 0x80 ≠ 0) candidates).
Proof.
  intros Hd Hrun candidates. rewrite (determine_endpoints_run s d n Hd) in Hrun.
  injection Hrun as <-. cbn [endpoint_in endpoint_out]. fold candidates.
  unfold last_in, last_out, ENDPOINT_IN.
  split; [|split; [|split]].
  - intros a Ha. split.
    + apply last_Some_elem_of, list_elem_of_filter in Ha. tauto.
    + apply last_filter_Some in Ha as (l1 & l2 & Hl & Hl2).
      exists l1, l2. split; [assumption|].
      eapply Forall_impl; [exact Hl2|]. cbn. intros z Hz. lia.
  - intros a Ha. split.
    + apply last_Some_elem_of, list_elem_of_filter in Ha. tauto.
    + apply last_filter_Some in Ha as (l1 & l2 & Hl & Hl2).
      exists l1, l2. split; assumption.
  - rewrite last_None. split.
    + intros Hnil. apply Forall_forall. intros z Hz.
      destruct (decide (Z.land z 128 = 0)) as [|Hne]; [assumption|].
      destruct (filter_nil_not_elem_of _ _ z Hnil Hne Hz).
    + intros Hall. induction Hall as [|z l Hz _ IH]; [reflexivity|].
      rewrite filter_cons. by rewrite decide_False by (intros H; contradiction).
  - rewrite last_None. split.
    + intros Hnil. apply Forall_forall. intros z Hz Hzero.
      destruct (filter_nil_not_elem_of _ _ z Hnil Hzero Hz).
    + intros Hall. induction Hall as [|z l Hz _ IH]; [reflexivity|].
      rewrite filter_cons. by rewrite decide_False.
Qed.

Lemma determined_endpoints_have_their_direction_witness :
  endpoint_in (mkController true DEVICE_ID_CHARGING_GRIP (Some example_grip)
                 (Some 0x82) (Some 0x02)) = None
  ↔ Forall (λ z, Z.land z 0x80 = 0) (candidate_endpoints example_grip 1).
Proof.
  refine (proj1 (proj2 (proj2
            (determined_endpoints_have_their_direction
               (mkController true DEVICE_ID_CHARGING_GRIP (Some example_grip)
                  None None)
               (mkController true DEVICE_ID_CHARGING_GRIP (Some example_grip)
                  (Some 0x82) (Some 0x02))
               example_grip 1 _ _)))).
  - reflexivity.
  - reflexivity.
Defined.

(** ** Discovery and setup: finding the device *)

Lemma find_rounds_S (vid pid delay : Z) (k : nat) (tr : list host_event) :
  (tr ++ [EvFind vid pid]) ++ EvSleep delay :: find_rounds vid pid delay k
  = tr ++ find_rounds vid pid delay (S k).
Proof.
  change (find_rounds vid pid delay (S k))
    with ([EvFind vid pid; EvSleep delay] ++ find_rounds vid pid delay k).
  by rewrite <- !app_assoc.
Qed.

Lemma find_rounds_snoc (vid pid delay : Z) (k : nat) (tr : list host_event) :
  ((tr ++ [EvFind vid pid]) ++ [EvSleep delay]) ++ find_rounds vid pid delay k
  = tr ++ find_rounds vid pid delay (S k).
Proof. rewrite <- find_rounds_S. by rewrite <- !app_assoc. Qed.

Lemma find_rounds_end (vid pid delay : Z) (k : nat) :
  find_rounds vid pid delay k ++ [EvFind vid pid; EvSleep delay]
  = find_rounds vid pid delay (S k).
Proof.
  induction k as [|k IH]; [reflexivity|].
  change (([EvFind vid pid; EvSleep delay] ++ find_rounds vid pid delay k)
            ++ [EvFind vid pid; EvSleep delay]
          = [EvFind vid pid; EvSleep delay] ++ find_rounds vid pid delay (S k)).
  rewrite <- IH. by rewrite <- app_assoc.
Qed.

Lemma connect_loop_misses (k fuel : nat) (vid pid delay : Z)
    (s : controller) (later : list (option usb_device))
    (tr : list host_event) :
  dev s = None →
  connect_loop (k + fuel) vid pid true delay s
    (Host (replicate k None ++ later) tr)
  = connect_loop fuel vid pid true delay s
      (Host later (tr ++ find_rounds vid pid delay k)).
Proof.
  intros Hs. revert tr. induction k as [|k IH]; intros tr.
  - cbn. unfold find_rounds. cbn. by rewrite app_nil_r.
  - cbn [Nat.add connect_loop replicate app]. rewrite Hs.
    unfold usb_core_find, time_sleep, host_log. cbn [found host_trace negb].
    assert (set_dev None s = s) as -> by (destruct s; cbn in Hs; by subst).
    rewrite IH. by rewrite find_rounds_snoc.
Qed.

(** X17: without [wait_for_device], [connect_to_device] raises [IOError]
    after a single lookup and no sleep, whether or not the lookup found
    the device; what was found is left in [dev]. *)
Theorem connect_without_waiting_always_raises (fuel : nat) (s : controller)
    (vid pid delay : Z) (h : host) :
  connect_to_device (S fuel) s vid pid false delay h
  = (Throws IOError,
     set_dev (mjoin (head (found h))) s,
     Host (tail (found h)) (host_trace h ++ [EvFind vid pid])).
Proof.
  unfold connect_to_device. cbn [connect_loop set_dev dev].
  unfold usb_core_find, host_log.
  destruct h as [[|d later] tr]; reflexivity.
Qed.






(** ** Discovery and setup: building the object *)

Lemma set_dev_None_id (s : controller) : dev s = None → set_dev None s = s.
Proof. intros Hs. destruct s. cbn in Hs. by subst. Qed.

Lemma connect_loop_returns (fuel : nat) (vid pid delay : Z) (wait : bool)
    (s s' : controller) (h h' : host) (u : unit) :
  dev s = None →
  connect_loop fuel vid pid wait delay s h = (Returns u, s', h') →
  wait = true ∧ ∃ d, s' = set_dev (Some d) s ∧ Some d ∈ found h.
Proof.
  intros Hs. revert h. induction fuel as [|fuel IH]; intros h.
  - cbn [connect_loop]. rewrite Hs. discriminate.
  - cbn [connect_loop]. rewrite Hs. unfold usb_core_find, time_sleep, host_log.
    destruct wait; cbn [negb]; [|destruct (found h); discriminate].
    destruct (found h) as [|[d|] later] eqn:Hf; cbn [found host_trace].
    + rewrite (set_dev_None_id s Hs). intros Hrun.
      apply IH in Hrun as (_ & d & _ & Hd). cbn in Hd.
      by apply elem_of_nil in Hd.
    + destruct fuel; cbn [connect_loop set_dev dev]; intros [= <- <- <-];
        (split; [reflexivity|]); exists d; (split; [reflexivity|]);
        apply list_elem_of_here.
    + rewrite (set_dev_None_id s Hs). intros Hrun.
      apply IH in Hrun as (_ & d & -> & Hd). cbn in Hd.
      split; [reflexivity|]. exists d. split; [reflexivity|].
      by apply list_elem_of_further.
Qed.

Lemma detach_kernel_driver_run (s : controller) (d : usb_device)
    (interface : Z) (h : host) :
  dev s = Some d →
  detach_kernel_driver s interface h
    = (Returns (), host_log (EvDetach interface) h).
Proof.
  intros Hd. unfold detach_kernel_driver, dev_detach_kernel_driver.
  rewrite Hd. by destruct (bool_decide _).
Qed.

(** X20: every object [__init__] returns has the DFU lock set, the
    charging grip's id, a device that a lookup returned, and both
    endpoints, taken from the interface asked for, the IN one with bit
    0x80 set and the OUT one with it clear; and [__init__] returns only
    when it was told to wait for the device. *)
Theorem init_establishes_the_object (fuel : nat) (interface : Z)
    (wait_for_device : bool) (h h' : host) (s : controller) :
  __init__ fuel interface wait_for_device h = (Returns s, h') →
  wait_for_device = true
  ∧ lock_dfu_command s = true
  ∧ device_id s = (0x057e, 0x200e)
  ∧ ∃ d a b,
      Some d ∈ found h
      ∧ dev s = Some d
      ∧ endpoint_in s = Some a ∧ endpoint_out s = Some b
      ∧ a ∈ candidate_endpoints d interface ∧ Z.land a 0x80 ≠ 0
      ∧ b ∈ candidate_endpoints d interface ∧ Z.land b 0x80 = 0.
Proof.
  unfold __init__, connect_to_device. cbn [device_id fst snd set_dev dev
    lock_dfu_command endpoint_in endpoint_out DEVICE_ID_CHARGING_GRIP].
  destruct (connect_loop _ _ _ _ _ _ h) as [[[u| |] s1] h1] eqn:Hconn;
    try discriminate.
  apply connect_loop_returns in Hconn as (-> & d & -> & Hd); [|reflexivity].
  rewrite (determine_endpoints_run _ d interface) by reflexivity.
  cbn [endpoint_in endpoint_out set_dev dev lock_dfu_command device_id].
  destruct (last_in (candidate_endpoints d interface)) as [a|] eqn:Ha;
    [|discriminate].
  destruct (last_out (candidate_endpoints d interface)) as [b|] eqn:Hb;
    [|discriminate].
  rewrite (detach_kernel_driver_run _ d) by reflexivity.
  intros [= <- <-]. repeat split. exists d, a, b.
  unfold last_in, last_out, ENDPOINT_IN in Ha, Hb.
  apply last_Some_elem_of, list_elem_of_filter in Ha as [Ha1 Ha2].
  apply last_Some_elem_of, list_elem_of_filter in Hb as [Hb1 Hb2].
  by repeat split.
Qed.

Lemma init_establishes_the_object_witness :
  true = true
  ∧ lock_dfu_command
      (mkController true DEVICE_ID_CHARGING_GRIP (Some example_grip)
         (Some 0x82) (Some 0x02)) = true
  ∧ device_id
      (mkController true DEVICE_ID_CHARGING_GRIP (Some example_grip)
         (Some 0x82) (Some 0x02)) = (0x057e, 0x200e)
  ∧ ∃ d a b,
      Some d ∈ [None; Some example_grip]
      ∧ dev (mkController true DEVICE_ID_CHARGING_GRIP (Some example_grip)
               (Some 0x82) (Some 0x02)) = Some d
      ∧ endpoint_in
          (mkController true DEVICE_ID_CHARGING_GRIP (Some example_grip)
             (Some 0x82) (Some 0x02)) = Some a
      ∧ endpoint_out
          (mkController true DEVICE_ID_CHARGING_GRIP (Some example_grip)
             (Some 0x82) (Some 0x02)) = Some b
      ∧ a ∈ candidate_endpoints d 1 ∧ Z.land a 0x80 ≠ 0
      ∧ b ∈ candidate_endpoints d 1 ∧ Z.land b 0x80 = 0.
Proof.
  apply (init_establishes_the_object 4 1 true
           (Host [None; Some example_grip] [])
           (Host [] [EvFind 0x057e 0x200e; EvSleep 1;
                     EvFind 0x057e 0x200e; EvSleep 1; EvDetach 1])).
  vm_compute. reflexivity.
Defined.

(** X21: when the device shows up at the lookup number [k] + 1,
    [__init__] (told to wait) looks and sleeps one second [k] + 1 times;
    it returns the object, after detaching the kernel driver of the
    interface, when the interface has an IN and an OUT endpoint, and
    raises [IOError], without detaching, when it lacks one. *)
Theorem init_outcome (k fuel : nat) (interface : Z) (d : usb_device)
    (later : list (option usb_device)) (tr : list host_event) :
  (k < fuel)%nat →
  let tr' := tr ++ find_rounds 0x057e 0x200e 1 (S k) in
  __init__ fuel interface true (Host (replicate k None ++ Some d :: later) tr)
  = match last_in (candidate_endpoints d interface),
          last_out (candidate_endpoints d interface) with
    | Some a, Some b =>
        (Returns (mkController true (0x057e, 0x200e) (Some d) (Some a) (Some b)),
         Host later (tr' ++ [EvDetach interface]))
    | _, _ => (Throws IOError, Host later tr')
    end.
Proof.
  intros Hfuel tr'. unfold __init__, connect_to_device.
  cbn [device_id fst snd set_dev dev lock_dfu_command endpoint_in
       endpoint_out DEVICE_ID_CHARGING_GRIP].
  replace fuel with (k + S (fuel - S k))%nat by lia.
  rewrite connect_loop_misses by reflexivity.
  cbn [connect_loop set_dev dev]. unfold usb_core_find, time_sleep, host_log.
  cbn [found host_trace negb dev lock_dfu_command device_id endpoint_in
       endpoint_out].
  assert (∀ f, connect_loop f 0x057e 0x200e true 1
                 (mkController true (0x057e, 0x200e) (Some d) None None)
                 (Host later
                    (((tr ++ find_rounds 0x057e 0x200e 1 k)
                        ++ [EvFind 0x057e 0x200e]) ++ [EvSleep 1]))
               = (Returns (),
                  mkController true (0x057e, 0x200e) (Some d) None None,
                  Host later tr')) as ->.
  { intros f. subst tr'. rewrite <- find_rounds_end, <- !app_assoc.
    by destruct f. }
  rewrite (determine_endpoints_run _ d interface) by reflexivity.
  cbn [endpoint_in endpoint_out lock_dfu_command device_id].
  destruct (last_in _) as [a|]; [|reflexivity].
  destruct (last_out _) as [b|]; [|reflexivity].
  by rewrite (detach_kernel_driver_run _ d) by reflexivity.
Qed.

Lemma init_outcome_witness :
  __init__ 4 1 true (Host (replicate 1 None ++ Some example_grip :: []) [])
  = (Returns (mkController true (0x057e, 0x200e) (Some example_grip)
                (Some 0x82) (Some 0x02)),
     Host [] (([] ++ find_rounds 0x057e 0x200e 1 2) ++ [EvDetach 1])).
Proof.
  apply (init_outcome 1 4 1 example_grip [] []). lia.
Defined.

(** X22: an object cannot be built without waiting: with
    [wait_for_device] false, [__init__] raises [IOError] after one lookup,
    also when that lookup found the device. *)
Theorem init_without_waiting_always_raises (fuel : nat) (interface : Z)
    (h : host) :
  __init__ (S fuel) interface false h
  = (Throws IOError,
     Host (tail (found h)) (host_trace h ++ [EvFind 0x057e 0x200e])).
Proof.
  unfold __init__, connect_to_device.
  cbn [connect_loop set_dev dev device_id fst snd DEVICE_ID_CHARGING_GRIP].
  unfold usb_core_find, host_log.
  destruct h as [[|d later] tr]; reflexivity.
Qed.


(** X24: [switch_to_dfu] never touches the transport and never returns;
    on every object built by [__init__] it raises the [IOError] of the
    lock. *)
Theorem switch_to_dfu_is_locked (fuel : nat) (interface : Z)
    (wait_for_device : bool) (h h' : host) (s s0 : controller) (w : world) :
  snd (switch_to_dfu s0 w) = w
  ∧ (∀ u, fst (switch_to_dfu s0 w) ≠ Returns u)
  ∧ (__init__ fuel interface wait_for_device h = (Returns s, h') →
     switch_to_dfu s w = (Throws IOError, w)).
Proof.
  split; [|split].
  - unfold switch_to_dfu. by destruct (lock_dfu_command s0).
  - intros u. unfold switch_to_dfu. by destruct (lock_dfu_command s0).
  - unfold __init__, connect_to_device. cbn [device_id fst snd set_dev dev
      lock_dfu_command endpoint_in endpoint_out DEVICE_ID_CHARGING_GRIP].
    destruct (connect_loop _ _ _ _ _ _ h) as [[[u| |] s1] h1] eqn:Hconn;
      try discriminate.
    apply connect_loop_returns in Hconn as (_ & d & -> & _); [|reflexivity].
    rewrite (determine_endpoints_run _ d interface) by reflexivity.
    cbn [endpoint_in endpoint_out set_dev dev lock_dfu_command device_id].
    destruct (last_in _); [|discriminate].
    destruct (last_out _); [|discriminate].
    rewrite (detach_kernel_driver_run _ d) by reflexivity.
    by intros [= <- <-].
Qed.

Lemma switch_to_dfu_is_locked_witness :
  switch_to_dfu
    (mkController true (0x057e, 0x200e) (Some example_grip)
       (Some 0x82) (Some 0x02))
    (World [] [] [])
  = (Throws IOError, World [] [] []).
Proof.
  refine (proj2 (proj2 (switch_to_dfu_is_locked 4 1 true
            (Host [None; Some example_grip] [])
            (Host [] [EvFind 0x057e 0x200e; EvSleep 1;
                      EvFind 0x057e 0x200e; EvSleep 1; EvDetach 1])
            _ (mkController false (0, 0) None None None) (World [] [] []))) _).
  vm_compute. reflexivity.
Defined.
